(** * CalDAV DELETE behaviours: twistedcaldav/method/delete_common.py

    Shallow embedding of [DeleteResource].  Every method of the class is an
    [inlineCallbacks] generator whose suspension points are calls into
    collaborators (quota, store, index, lock, implicit scheduler, sharing).
    We model a method as a computation in a writer/exception monad: it
    returns a value or raises a Python exception, and it records the
    collaborator calls it makes, in order, in a trace of [Event]s.  The
    read-only collaborators (quota lookups, property reads, listings,
    lock availability, ...) are the fields of an [Env]. *)

From stdpp Require Import base gmap strings list fin_maps.

(* ------------------------------------------------------------------ *)
(** ** Response codes (twext.web2.responsecode) *)

Definition NO_CONTENT : Z := 204.
Definition BAD_REQUEST : Z := 400.
Definition FORBIDDEN : Z := 403.
Definition CONFLICT : Z := 409.
Definition PRECONDITION_FAILED : Z := 412.

(** A resource is named by its path. *)
Definition Res := string.

(** What [fileop.delete] and [ResponseQueue.response] hand back: the
    plain [responsecode.NO_CONTENT] or a [MultiStatusResponse] whose
    children map a URI to a status code. *)
Inductive Resp :=
| RNoContent
| RMultiStatus (children : gmap string Z).

(** Python exceptions that travel through the methods. *)
Inductive Exn :=
| HTTPError (code : Z)            (* twext.web2.http.HTTPError *)
| MemcacheLockTimeoutError
| UnboundLocalError (name : string)
| CollaboratorError.              (* any other failure of a collaborator *)

(** Collaborator calls with an effect (or whose occurrence matters). *)
Inductive Event :=
| EvDelete (uri : string) (r : Res) (depth : string)   (* fileop.delete *)
| EvQuotaAdjust (r : Res) (delta : Z)                  (* quotaSizeAdjust *)
| EvBumpSyncToken (c : Res)
| EvIndexDelete (c : Res) (name : string)              (* index().deleteResource *)
| EvTestImplicit (r : Res)           (* testImplicitSchedulingDELETE *)
| EvDoImplicit (r : Res)             (* scheduler.doImplicitScheduling *)
| EvLockAcquired (uid : string)      (* lock.acquire() returned *)
| EvLockClean (uid : string)         (* lock.clean() *)
| EvRemoveVirtualShare (r : Res)
| EvDowngradeFromShare (r : Res)
| EvDeletedCalendar (r : Res).

(* ------------------------------------------------------------------ *)
(** ** The monad *)

Definition M (A : Type) : Type := (list Event * (Exn + A))%type.

Global Instance M_ret : MRet M := λ A a, ([], inr a).
Global Instance M_bind : MBind M := λ A B f m,
  match m with
  | (l, inl e) => (l, inl e)
  | (l, inr a) => let '(l', r) := f a in (l ++ l', r)
  end.

Definition emit (e : Event) : M unit := ([e], inr tt).
Definition raise {A} (e : Exn) : M A := ([], inl e).

(** [try: m except <exn matching p>: h] *)
Definition try_except {A} (p : Exn → bool) (m : M A) (h : Exn → M A) : M A :=
  match m with
  | (l, inl e) => if p e then let '(l', r) := h e in (l ++ l', r) else (l, inl e)
  | ok => ok
  end.

(** [try: m finally: fin]; an exception of [fin] replaces the outcome. *)
Definition try_finally {A} (m : M A) (fin : M unit) : M A :=
  let '(l, r) := m in
  let '(l', r') := fin in
  match r' with
  | inl e => (l ++ l', inl e)
  | inr _ => (l ++ l', r)
  end.

Definition is_lock_timeout (e : Exn) : bool :=
  match e with MemcacheLockTimeoutError => true | _ => false end.

(* ------------------------------------------------------------------ *)
(** ** The request, the instance and the collaborators *)

(** The [DeleteResource] instance ([self]); the request contributes its
    [If-Schedule-Tag-Match] header. *)
Record DeleteResource := {
  if_schedule_tag_match : option string;
  resource : Res;
  resource_uri : string;
  parent : Res;
  depth : string;
  internal_request : bool;
  allowImplicitSchedule : bool
}.

(** Read-only collaborators and the store's answers.  [fileop_delete]
    returns [None] when the delete itself fails; [implicit_fails] says
    whether [doImplicitScheduling] fails; [lock_available] is [false] when
    [MemcacheLock.acquire] times out. *)
Record Env := {
  exists_ : Res → bool;
  schedule_tag : Res → option string;     (* hasDeadProperty/readDeadProperty(ScheduleTag) *)
  quota : Res → option Z;
  quotaSize : Res → Z;
  fileop_delete : string → Res → string → option Resp;
  resourceUID : Res → string;             (* iCalendarForUser(...).resourceUID() *)
  testImplicitSchedulingDELETE : Res → bool;
  implicit_fails : Res → bool;
  lock_available : string → bool;
  isVirtualShare : Res → bool;
  isDefaultCalendar : Res → bool;
  isShared : Res → bool;
  isPseudoCalendarCollectionResource : Res → bool;
  isCalendarCollectionResource : Res → bool;
  isAddressBookCollectionResource : Res → bool;
  isCollection : Res → bool;
  listChildren : Res → list string;
  locateChildResource : Res → string → option Res;   (* None: the lookup raises *)
  locateParent : Res → string → Res;
  basename : Res → string;
  calendarCollections : Res → string → list (Res * string);
  addressBookCollections : Res → string → list (Res * string)
}.

(** Modelled from the spec: twext's [joinURL] (not in this source tree);
    the child URI is the collection URI followed by the child name. *)
Definition joinURL (uri name : string) : string := uri +:+ "/" +:+ name.

(** Modelled from the spec: twext's [ResponseQueue] (not in this source
    tree), a map from child URI to error code with a default success
    response; [response()] is the success response when no error was
    added, else a multi-status response over the recorded errors. *)
Abbreviation ResponseQueue := (gmap string Z) (only parsing).

Definition rq_add (uri : string) (code : Z) (q : ResponseQueue) : ResponseQueue :=
  <[uri := code]> q.

Definition rq_response (q : ResponseQueue) : Resp :=
  if decide (q = ∅) then RNoContent else RMultiStatus q.

(** [errors.responses.update(more.children)] when [more] is a
    [MultiStatusResponse]: entries of [more] win. *)
Definition rq_merge (more : Resp) (q : ResponseQueue) : ResponseQueue :=
  match more with
  | RMultiStatus ch => ch ∪ q
  | RNoContent => q
  end.

Definition is_no_content (r : Resp) : bool :=
  match r with RNoContent => true | _ => false end.

(* ------------------------------------------------------------------ *)
(** ** The methods of [DeleteResource] *)

Section Delete.

Variable env : Env.

(** Collaborator calls. *)

Definition delete (uri : string) (r : Res) (d : string) : M Resp :=
  emit (EvDelete uri r d) ;;
  match fileop_delete env uri r d with
  | Some response => mret response
  | None => raise CollaboratorError
  end.

Definition quotaSizeAdjust (r : Res) (delta : Z) : M unit := emit (EvQuotaAdjust r delta).

Definition bumpSyncToken (c : Res) : M unit := emit (EvBumpSyncToken c).

Definition index_deleteResource (c : Res) (name : string) : M unit :=
  emit (EvIndexDelete c name).

Definition testImplicit (r : Res) : M bool :=
  emit (EvTestImplicit r) ;; mret (testImplicitSchedulingDELETE env r).

Definition doImplicitScheduling (r : Res) : M unit :=
  emit (EvDoImplicit r) ;;
  if implicit_fails env r then raise CollaboratorError else mret ().

Definition lock_acquire (uid : string) : M unit :=
  if lock_available env uid then emit (EvLockAcquired uid)
  else raise MemcacheLockTimeoutError.

Definition lock_clean (uid : string) : M unit := emit (EvLockClean uid).

(** [validIfScheduleMatch].  [scheduletag] is a Python local assigned only
    when the resource exists and has a ScheduleTag property; [None] stands
    for the unbound local, which the [log.debug] formatting reads. *)
Definition validIfScheduleMatch (self : DeleteResource) : M unit :=
  if negb (internal_request self) then
    match if_schedule_tag_match self with
    | Some header =>
        if decide (header = "") then mret ()   (* falsy header: the pass branch *)
        else
          let scheduletag : option string :=
            if exists_ env (resource self) then schedule_tag env (resource self) else None in
          let matched :=
            match scheduletag with Some t => bool_decide (t = header) | None => false end in
          if negb matched then
            match scheduletag with
            | None => raise (UnboundLocalError "scheduletag")
            | Some _ => raise (HTTPError PRECONDITION_FAILED)
            end
          else mret ()
    | None => mret ()
    end
  else mret ().

Definition deleteResource (self : DeleteResource) (delresource : Res) (deluri : string)
    (parent : Res) : M Resp :=
  let myquota := quota env delresource in
  let old_size := match myquota with Some _ => quotaSize env delresource | None => 0%Z end in
  response ← delete deluri delresource (depth self);
  (match myquota with Some _ => quotaSizeAdjust delresource (- old_size) | None => mret () end) ;;
  (if is_no_content response then
     if isPseudoCalendarCollectionResource env parent then
       bumpSyncToken parent ;; index_deleteResource parent (basename env delresource)
     else mret ()
   else mret ()) ;;
  mret response.

(** The body of the [try] in [deleteCalendarResource]; [scheduler] is
    whether an [ImplicitScheduler] was created. *)
Definition deleteCalendarResource_body (self : DeleteResource) (delresource : Res)
    (deluri : string) (parent : Res) (myquota : option Z) (old_size : Z)
    (scheduler : bool) (lock : option string) : M Resp :=
  (match lock with Some uid => lock_acquire uid | None => mret () end) ;;
  response ← delete deluri delresource (depth self);
  (match myquota with Some _ => quotaSizeAdjust delresource (- old_size) | None => mret () end) ;;
  (if is_no_content response then
     bumpSyncToken parent ;;
     index_deleteResource parent (basename env delresource) ;;
     (if scheduler && negb (internal_request self) && allowImplicitSchedule self
      then doImplicitScheduling delresource else mret ())
   else mret ()) ;;
  mret response.

Definition deleteCalendarResource (self : DeleteResource) (delresource : Res)
    (deluri : string) (parent : Res) : M Resp :=
  validIfScheduleMatch self ;;
  let myquota := quota env delresource in
  let old_size := match myquota with Some _ => quotaSize env delresource | None => 0%Z end in
  '(scheduler, lock) ←
    (if negb (internal_request self) && allowImplicitSchedule self then
       testImplicit delresource ≫= λ do_implicit_action : bool,
       if do_implicit_action then
         if isVirtualShare env parent then raise (HTTPError FORBIDDEN)
         else mret (true, Some (resourceUID env delresource))
       else mret (true, None)
     else mret (false, None) : M (bool * option string));
  try_finally
    (try_except is_lock_timeout
       (deleteCalendarResource_body self delresource deluri parent myquota old_size scheduler lock)
       (λ _, raise (HTTPError CONFLICT)))
    (match lock with Some uid => lock_clean uid | None => mret () end).

(** The per-child loop of [deleteCalendar] and [deleteAddressBook]: a bare
    [except:] records the child URI with [BAD_REQUEST]. *)
Fixpoint deleteChildren (del_child : Res → string → Res → M Resp) (delresource : Res)
    (deluri : string) (names : list string) (errors : ResponseQueue) : M ResponseQueue :=
  match names with
  | [] => mret errors
  | childname :: rest =>
      let childurl := joinURL deluri childname in
      (* [request.locateChildResource] runs outside the [try] *)
      match locateChildResource env delresource childname with
      | None => raise CollaboratorError
      | Some child =>
          errors' ← try_except (λ _, true)
                      (del_child child childurl delresource ;; mret errors)
                      (λ _, mret (rq_add childurl BAD_REQUEST errors));
          deleteChildren del_child delresource deluri rest errors'
      end
  end.

Definition deleteCalendar (self : DeleteResource) (delresource : Res) (deluri : string)
    (parent : Res) : M Resp :=
  if isDefaultCalendar env delresource then raise (HTTPError FORBIDDEN) else
  if negb (bool_decide (depth self = "infinity")) then raise (HTTPError BAD_REQUEST) else
  if isVirtualShare env delresource then
    emit (EvRemoveVirtualShare delresource) ;; mret RNoContent
  else
    errors ← deleteChildren (deleteCalendarResource self) delresource deluri
               (listChildren env delresource) ∅;
    (if isShared env delresource then emit (EvDowngradeFromShare delresource) else mret ()) ;;
    bumpSyncToken delresource ;;
    more_responses ← deleteResource self delresource deluri parent;
    let response := rq_response (rq_merge more_responses errors) in
    (if is_no_content response then emit (EvDeletedCalendar delresource) else mret ()) ;;
    mret response.

(** Modelled from the spec: [applyToCalendarCollections] and
    [applyToAddressBookCollections] of report_common (not in this source
    tree) walk the tree below the target and apply the callback to every
    calendar (address book) collection found, given by
    [calendarCollections] ([addressBookCollections]) in walk order; a
    failure of the callback propagates. *)
Fixpoint applyToCollections (f : Res → string → M ResponseQueue → M ResponseQueue)
    (cols : list (Res * string)) (errors : ResponseQueue) : M ResponseQueue :=
  match cols with
  | [] => mret errors
  | (r, uri) :: rest =>
      errors' ← f r uri (mret errors);
      applyToCollections f rest errors'
  end.

Definition deleteCollection (self : DeleteResource) : M Resp :=
  if negb (bool_decide (depth self = "infinity")) then raise (HTTPError BAD_REQUEST) else
  let doDeleteCalendar (delresource : Res) (deluri : string) (errs : M ResponseQueue) :=
    errors ← errs;
    let delparent := locateParent env delresource deluri in
    response ← deleteCalendar self delresource deluri delparent;
    mret (rq_merge response errors) in
  errors ← applyToCollections doDeleteCalendar
             (calendarCollections env (resource self) (resource_uri self)) ∅;
  more_responses ← deleteResource self (resource self) (resource_uri self) (parent self);
  mret (rq_response (rq_merge more_responses errors)).

(** The body of the [try] in [deleteAddressBookResource]. *)
Definition deleteAddressBookResource_body (self : DeleteResource) (delresource : Res)
    (deluri : string) (parent : Res) (myquota : option Z) (old_size : Z) : M Resp :=
  response ← delete deluri delresource (depth self);
  (match myquota with Some _ => quotaSizeAdjust delresource (- old_size) | None => mret () end) ;;
  (if is_no_content response then
     bumpSyncToken parent ;; index_deleteResource parent (basename env delresource)
   else mret ()) ;;
  mret response.

Definition deleteAddressBookResource (self : DeleteResource) (delresource : Res)
    (deluri : string) (parent : Res) : M Resp :=
  let myquota := quota env delresource in
  let old_size := match myquota with Some _ => quotaSize env delresource | None => 0%Z end in
  try_except is_lock_timeout
    (deleteAddressBookResource_body self delresource deluri parent myquota old_size)
    (λ _, raise (HTTPError CONFLICT)).

Definition deleteAddressBook (self : DeleteResource) (delresource : Res) (deluri : string)
    (parent : Res) : M Resp :=
  if negb (bool_decide (depth self = "infinity")) then raise (HTTPError BAD_REQUEST) else
  if isVirtualShare env delresource then
    emit (EvRemoveVirtualShare delresource) ;; mret RNoContent
  else
    errors ← deleteChildren (deleteAddressBookResource self) delresource deluri
               (listChildren env delresource) ∅;
    (if isShared env delresource then emit (EvDowngradeFromShare delresource) else mret ()) ;;
    bumpSyncToken delresource ;;
    more_responses ← deleteResource self delresource deluri parent;
    mret (rq_response (rq_merge more_responses errors)).

Definition deleteCollectionAB (self : DeleteResource) : M Resp :=
  if negb (bool_decide (depth self = "infinity")) then raise (HTTPError BAD_REQUEST) else
  let doDeleteAddressBook (delresource : Res) (deluri : string) (errs : M ResponseQueue) :=
    errors ← errs;
    let delparent := locateParent env delresource deluri in
    response ← deleteAddressBook self delresource deluri delparent;
    mret (rq_merge response errors) in
  errors ← applyToCollections doDeleteAddressBook
             (addressBookCollections env (resource self) (resource_uri self)) ∅;
  more_responses ← deleteResource self (resource self) (resource_uri self) (parent self);
  mret (rq_response (rq_merge more_responses errors)).

Definition run (self : DeleteResource) : M Resp :=
  if isCalendarCollectionResource env (parent self) then
    deleteCalendarResource self (resource self) (resource_uri self) (parent self)
  else if isCalendarCollectionResource env (resource self) then
    deleteCalendar self (resource self) (resource_uri self) (parent self)
  else if isAddressBookCollectionResource env (parent self) then
    deleteAddressBookResource self (resource self) (resource_uri self) (parent self)
  else if isAddressBookCollectionResource env (resource self) then
    deleteAddressBook self (resource self) (resource_uri self) (parent self)
  else if isCollection env (resource self) then
    deleteCollection self
  else
    deleteResource self (resource self) (resource_uri self) (parent self).

End Delete.

Global Instance Resp_eq_dec : EqDecision Resp.
Proof. solve_decision. Defined.
Global Instance Exn_eq_dec : EqDecision Exn.
Proof. solve_decision. Defined.
Global Instance Event_eq_dec : EqDecision Event.
Proof. solve_decision. Defined.

(* ------------------------------------------------------------------ *)
(** ** A small store used for concrete runs

    The calendar collection ["/cal"] holds the children [children]; a
    child named [n] is the resource ["/cal/" ++ n].  [bad] lists the
    children whose file delete fails; [coldel] is what [fileop.delete]
    returns for the collection itself. *)

Definition test_env (coldel : option Resp) (q : option Z) (implicit lock_ok : bool)
    (default virt : bool) (children bad : list string) (tag : option string) : Env := {|
  exists_ := λ _, true;
  schedule_tag := λ _, tag;
  quota := λ _, q;
  quotaSize := λ _, 10%Z;
  fileop_delete := λ uri r d,
    if decide (r = "/cal") then coldel
    else if decide (r ∈ map (joinURL "/cal") bad) then None
    else Some RNoContent;
  resourceUID := λ _, "uid-1";
  testImplicitSchedulingDELETE := λ _, implicit;
  implicit_fails := λ _, false;
  lock_available := λ _, lock_ok;
  isVirtualShare := λ r, if decide (r = "/cal") then virt else false;
  isDefaultCalendar := λ r, if decide (r = "/cal") then default else false;
  isShared := λ _, false;
  isPseudoCalendarCollectionResource := λ r, bool_decide (r = "/cal");
  isCalendarCollectionResource := λ r, bool_decide (r = "/cal");
  isAddressBookCollectionResource := λ _, false;
  isCollection := λ r, bool_decide (r = "/cal");
  listChildren := λ r, if decide (r = "/cal") then children else [];
  locateChildResource := λ r n, Some (joinURL r n);
  locateParent := λ _ _, "/";
  basename := λ r, r;
  calendarCollections := λ _ _, [];
  addressBookCollections := λ _ _, []
|}.

(** A client DELETE of [target] at [d], no If-Schedule-Tag-Match header. *)
Definition client_delete (target par d : string) : DeleteResource := {|
  if_schedule_tag_match := None;
  resource := target;
  resource_uri := target;
  parent := par;
  depth := d;
  internal_request := false;
  allowImplicitSchedule := true
|}.

(** Concrete runs. *)
Example run_child_delete :
  deleteCalendarResource
    (test_env (Some RNoContent) (Some 5%Z) false true false false ["a"] [] None)
    (client_delete "/cal/a" "/cal" "0") "/cal/a" "/cal/a" "/cal"
  = ([EvTestImplicit "/cal/a"; EvDelete "/cal/a" "/cal/a" "0"; EvQuotaAdjust "/cal/a" (-10);
      EvBumpSyncToken "/cal"; EvIndexDelete "/cal" "/cal/a"; EvDoImplicit "/cal/a"],
     inr RNoContent).
Proof. reflexivity. Qed.

Example run_bad_depth :
  deleteCalendar (test_env (Some RNoContent) None false true false false [] [] None)
    (client_delete "/cal" "/" "0") "/cal" "/cal" "/" = ([], inl (HTTPError BAD_REQUEST)).
Proof. reflexivity. Qed.

(* ------------------------------------------------------------------ *)
(** ** Facts about the collaborator wrappers *)

Lemma validIfScheduleMatch_trace env self : (validIfScheduleMatch env self).1 = [].
Proof. unfold validIfScheduleMatch. repeat case_match; reflexivity. Qed.

Lemma validIfScheduleMatch_no_timeout env self l :
  validIfScheduleMatch env self ≠ (l, inl MemcacheLockTimeoutError).
Proof. unfold validIfScheduleMatch. repeat case_match; discriminate. Qed.


(* ------------------------------------------------------------------ *)
(** ** Tactics for case analysis on the collaborators' answers *)

Ltac unfold_M :=
  unfold mbind, M_bind, mret, M_ret, emit, raise, try_finally, try_except in *.

Ltac dcr_unfold :=
  unfold deleteCalendarResource, deleteCalendarResource_body, testImplicit, delete,
    doImplicitScheduling, lock_acquire, lock_clean, quotaSizeAdjust, bumpSyncToken,
    index_deleteResource; unfold_M.

Ltac in_list H :=
  repeat (rewrite elem_of_cons in H || rewrite elem_of_nil in H).

Lemma split_cons (l : list Event) (x e : Event) (P : list Event → Prop) :
  (∃ l1 l2, l = l1 ++ e :: l2 ∧ P l2) → ∃ l1 l2, x :: l = l1 ++ e :: l2 ∧ P l2.
Proof. intros (l1 & l2 & -> & HP). exists (x :: l1), l2. auto. Qed.

(** Split a concrete trace at the first occurrence of an event. *)
Ltac split_at :=
  first [ exists []; eexists; split; [reflexivity|]
        | apply split_cons; split_at ].

(** Every answer that steers [deleteCalendarResource]: the precondition,
    the request flags, the scheduler's verdict, the parent's sharing, the
    lock, the file delete, the quota and the scheduling step. *)
Ltac dcr_cases env self r uri p :=
  pose proof (validIfScheduleMatch_trace env self) as Hv;
  dcr_unfold;
  destruct (validIfScheduleMatch env self) as [l0 [e|[]]] eqn:Evs; simpl in Hv; subst l0; simpl;
  [| destruct (internal_request self) eqn:Hi; destruct (allowImplicitSchedule self) eqn:Ha;
     destruct (testImplicitSchedulingDELETE env r) eqn:Ht;
     destruct (isVirtualShare env p) eqn:Hvs;
     destruct (lock_available env (resourceUID env r)) eqn:Hl;
     destruct (fileop_delete env uri r (depth self)) as [[|ms]|] eqn:Hd;
     destruct (quota env r) eqn:Hq;
     destruct (implicit_fails env r) eqn:Hf; simpl;
     repeat match goal with
       H : lock_available _ _ = _ |- context [lock_available _ _] => rewrite H; simpl
     end].


(* ------------------------------------------------------------------ *)
(** ** The per-child loop *)

(** Whether the child [n] of the collection [r] (at [uri]) is found and its
    delete raises. *)
Definition child_failed (env : Env) (del_child : Res → string → Res → M Resp) (r : Res)
    (uri n : string) : bool :=
  match locateChildResource env r n with
  | Some c => match (del_child c (joinURL uri n) r).2 with inl _ => true | inr _ => false end
  | None => false
  end.

(** The calls made by the delete of the child [n]. *)
Definition child_trace (env : Env) (del_child : Res → string → Res → M Resp) (r : Res)
    (uri n : string) : list Event :=
  match locateChildResource env r n with
  | Some c => (del_child c (joinURL uri n) r).1
  | None => []
  end.

(** Whether every name of [ns] locates a child of [r]. *)
Definition all_located (env : Env) (r : Res) (ns : list string) : Prop :=
  ∀ n, n ∈ ns → is_Some (locateChildResource env r n).

(** The errors the loop records: one [BAD_REQUEST] per failed child. *)
Definition failed_errors (env : Env) (del_child : Res → string → Res → M Resp) (r : Res)
    (uri : string) (ns : list string) (q : ResponseQueue) : ResponseQueue :=
  foldl (λ q n, if child_failed env del_child r uri n then rq_add (joinURL uri n) BAD_REQUEST q
                else q) q ns.

(** When every child is found, the loop runs every child's delete in
    listing order and never raises. *)
Lemma deleteChildren_spec env del_child r uri ns q :
  all_located env r ns →
  deleteChildren env del_child r uri ns q =
    (concat (map (child_trace env del_child r uri) ns),
     inr (failed_errors env del_child r uri ns q)).
Proof.
  unfold all_located.
  revert q; induction ns as [|n ns IH]; intros q Hloc; [reflexivity|].
  destruct (Hloc n (list_elem_of_here n ns)) as [c Hc].
  assert (Hrest : ∀ n', n' ∈ ns → is_Some (locateChildResource env r n'))
    by (intros n' Hn'; apply Hloc; apply list_elem_of_further; exact Hn').
  simpl. rewrite Hc. unfold failed_errors in *. simpl.
  assert (Hb : child_failed env del_child r uri n =
    match (del_child c (joinURL uri n) r).2 with inl _ => true | inr _ => false end)
    by (unfold child_failed; rewrite Hc; reflexivity).
  assert (Ht : child_trace env del_child r uri n = (del_child c (joinURL uri n) r).1)
    by (unfold child_trace; rewrite Hc; reflexivity).
  rewrite Hb, Ht. unfold_M.
  destruct (del_child _ _ _) as [l [e|a]]; simpl; rewrite IH by exact Hrest; simpl;
    rewrite ?app_nil_r; reflexivity.
Qed.

(** A child that is not found aborts the loop with the lookup's failure,
    after the deletes of the children before it. *)
Lemma deleteChildren_lost env del_child r uri pre n post q :
  all_located env r pre → locateChildResource env r n = None →
  deleteChildren env del_child r uri (pre ++ n :: post) q =
    (concat (map (child_trace env del_child r uri) pre), inl CollaboratorError).
Proof.
  unfold all_located.
  revert q; induction pre as [|n0 pre IH]; intros q Hloc Hn; simpl; [rewrite Hn; reflexivity|].
  destruct (Hloc n0 (list_elem_of_here n0 pre)) as [c Hc].
  assert (Hrest : ∀ n', n' ∈ pre → is_Some (locateChildResource env r n'))
    by (intros n' Hn'; apply Hloc; apply list_elem_of_further; exact Hn').
  rewrite Hc.
  assert (Ht : child_trace env del_child r uri n0 = (del_child c (joinURL uri n0) r).1)
    by (unfold child_trace; rewrite Hc; reflexivity).
  rewrite Ht. unfold_M.
  destruct (del_child _ _ _) as [l [e|a]]; simpl; rewrite IH by assumption; simpl;
    rewrite ?app_nil_r; reflexivity.
Qed.


Lemma joinURL_inj uri a b : joinURL uri a = joinURL uri b → a = b.
Proof.
  unfold joinURL. intros H.
  apply (inj (String.append uri)) in H. apply (inj (String.append "/")) in H. exact H.
Qed.

Lemma failed_errors_lookup env del_child r uri ns q k v :
  map_Forall (λ _ c, c = BAD_REQUEST) q →
  failed_errors env del_child r uri ns q !! k = Some v ↔
  v = BAD_REQUEST ∧
  ((∃ n, n ∈ ns ∧ child_failed env del_child r uri n = true ∧ k = joinURL uri n) ∨
   is_Some (q !! k)).
Proof.
  unfold failed_errors.
  revert q; induction ns as [|n ns IH]; intros q Hq; cbn [foldl].
  - split.
    + intros Hk. split; [exact (Hq k v Hk)|]. right. eauto.
    + intros [-> [(? & Hn & _) | [v' Hk]]]; [set_solver|].
      rewrite Hk. f_equal. exact (Hq k v' Hk).
  - destruct (child_failed env del_child r uri n) eqn:Hc; cbv iota; unfold rq_add.
    + rewrite IH by (apply map_Forall_insert_2; [reflexivity | exact Hq]).
      rewrite lookup_insert_is_Some'. setoid_rewrite elem_of_cons.
      split; intros [-> H]; (split; [reflexivity|]).
      * destruct H as [(n0 & Hn0 & Hc0 & ->) | [<- | Hs]].
        -- left. exists n0. split; [right; exact Hn0 | auto].
        -- left. exists n. split; [left; reflexivity | auto].
        -- right. exact Hs.
      * destruct H as [(n0 & [-> | Hn0] & Hc0 & ->) | Hs].
        -- right. left. reflexivity.
        -- left. exists n0. auto.
        -- right. right. exact Hs.
    + rewrite IH by exact Hq. setoid_rewrite elem_of_cons.
      split; intros [-> H]; (split; [reflexivity|]).
      * destruct H as [(n0 & Hn0 & Hc0 & ->) | Hs].
        -- left. exists n0. split; [right; exact Hn0 | auto].
        -- right. exact Hs.
      * destruct H as [(n0 & [-> | Hn0] & Hc0 & ->) | Hs].
        -- congruence.
        -- left. exists n0. auto.
        -- right. exact Hs.
Qed.

Lemma failed_errors_size env del_child r uri ns q :
  NoDup ns → (∀ n, n ∈ ns → q !! joinURL uri n = None) →
  size (failed_errors env del_child r uri ns q) =
    size q + length (filter (λ n, child_failed env del_child r uri n = true) ns).
Proof.
  unfold failed_errors.
  revert q; induction ns as [|n ns IH]; intros q Hnd Hq; cbn [foldl]; [simpl; lia|].
  apply NoDup_cons in Hnd as [Hn Hnd].
  destruct (child_failed env del_child r uri n) eqn:Hc; cbv iota.
  - rewrite filter_cons_True by done. cbn [length]. unfold rq_add.
    rewrite IH; [| exact Hnd |].
    + rewrite map_size_insert_None; [lia|]. apply Hq. set_solver.
    + intros n' Hn'. rewrite lookup_insert_ne.
      * apply Hq. set_solver.
      * intros Heq. apply joinURL_inj in Heq. subst. contradiction.
  - rewrite filter_cons_False by (rewrite Hc; discriminate).
    apply IH; [exact Hnd|]. intros n' Hn'. apply Hq. set_solver.
Qed.

(* ------------------------------------------------------------------ *)
(** ** C5: the If-Schedule-Tag-Match precondition *)

(** C5 (code_bug): for a client request with a non-empty
    If-Schedule-Tag-Match header on a resource that does not exist or has
    no stored schedule tag, [validIfScheduleMatch] does not fail with
    PreconditionFailed: formatting the debug message reads the unbound
    local [scheduletag], so the check raises UnboundLocalError. *)
Theorem validIfScheduleMatch_untagged_unbound (env : Env) (self : DeleteResource) (header : string) :
  internal_request self = false →
  if_schedule_tag_match self = Some header →
  header ≠ "" →
  (exists_ env (resource self) = false ∨ schedule_tag env (resource self) = None) →
  validIfScheduleMatch env self = ([], inl (UnboundLocalError "scheduletag")).
Proof.
  intros Hint Hhdr Hne Hnotag. unfold validIfScheduleMatch.
  rewrite Hint, Hhdr. simpl. rewrite decide_False by done.
  destruct Hnotag as [He | Ht].
  - rewrite He. reflexivity.
  - destruct (exists_ env (resource self)); [rewrite Ht|]; reflexivity.
Qed.

Lemma validIfScheduleMatch_untagged_unbound_witness :
  internal_request (client_delete "/cal/a" "/cal" "0") = false ∧
  validIfScheduleMatch (test_env (Some RNoContent) None false true false false [] [] None)
    {| if_schedule_tag_match := Some "1"; resource := "/cal/a"; resource_uri := "/cal/a";
       parent := "/cal"; depth := "0"; internal_request := false;
       allowImplicitSchedule := true |}
  = ([], inl (UnboundLocalError "scheduletag")).
Proof.
  split; [reflexivity|].
  apply (validIfScheduleMatch_untagged_unbound _ _ "1");
    [reflexivity | reflexivity | discriminate | right; reflexivity].
Defined.

(* ------------------------------------------------------------------ *)
(** ** C6: the Depth restriction on collection deletes *)

(** C6 (as stated): deleteCalendar with a Depth other than "infinity" on
    the default calendar yields Forbidden, not BadRequest. *)
Lemma deleteCalendar_depth_counterexample :
  deleteCalendar (test_env (Some RNoContent) None false true true false [] [] None)
    (client_delete "/cal" "/" "0") "/cal" "/cal" "/"
  ≠ ([], inl (HTTPError BAD_REQUEST)).
Proof. vm_compute. discriminate. Qed.

(** C6 (amended): with a Depth other than "infinity", deleteCollection,
    deleteCollectionAB and deleteAddressBook raise BadRequest, and
    deleteCalendar raises BadRequest unless the collection is the default
    calendar, where it raises Forbidden; in every case no collaborator
    with an effect is called (the trace is empty). *)
Theorem collection_delete_bad_depth (env : Env) (self : DeleteResource) (r : Res)
    (uri : string) (p : Res) :
  depth self ≠ "infinity" →
  deleteCollection env self = ([], inl (HTTPError BAD_REQUEST)) ∧
  deleteCollectionAB env self = ([], inl (HTTPError BAD_REQUEST)) ∧
  deleteAddressBook env self r uri p = ([], inl (HTTPError BAD_REQUEST)) ∧
  deleteCalendar env self r uri p =
    ([], inl (HTTPError (if isDefaultCalendar env r then FORBIDDEN else BAD_REQUEST))).
Proof.
  intros Hd.
  unfold deleteCollection, deleteCollectionAB, deleteAddressBook, deleteCalendar.
  rewrite bool_decide_false by exact Hd. simpl.
  destruct (isDefaultCalendar env r); repeat split.
Qed.

Lemma collection_delete_bad_depth_witness :
  depth (client_delete "/cal" "/" "0") ≠ "infinity" ∧
  deleteCalendar (test_env (Some RNoContent) None false true false false [] [] None)
    (client_delete "/cal" "/" "0") "/cal" "/cal" "/" = ([], inl (HTTPError BAD_REQUEST)).
Proof.
  split; [discriminate|].
  pose proof (collection_delete_bad_depth
    (test_env (Some RNoContent) None false true false false [] [] None)
    (client_delete "/cal" "/" "0") "/cal" "/cal" "/" ltac:(discriminate)) as (_ & _ & _ & H).
  exact H.
Defined.

(* ------------------------------------------------------------------ *)
(** ** C7: the default calendar *)

(** C7: deleteCalendar on the owner's default calendar raises Forbidden
    whatever the Depth and the store, before any collaborator with an
    effect is called. *)
Theorem deleteCalendar_default_forbidden (env : Env) (self : DeleteResource) (r : Res)
    (uri : string) (p : Res) :
  isDefaultCalendar env r = true →
  deleteCalendar env self r uri p = ([], inl (HTTPError FORBIDDEN)).
Proof. intros H. unfold deleteCalendar. rewrite H. reflexivity. Qed.

Lemma deleteCalendar_default_forbidden_witness :
  isDefaultCalendar (test_env (Some RNoContent) None false true true false ["a"] [] None) "/cal"
    = true ∧
  deleteCalendar (test_env (Some RNoContent) None false true true false ["a"] [] None)
    (client_delete "/cal" "/" "infinity") "/cal" "/cal" "/" = ([], inl (HTTPError FORBIDDEN)).
Proof.
  split; [reflexivity|]. apply deleteCalendar_default_forbidden. reflexivity.
Defined.

(* ------------------------------------------------------------------ *)
(** ** C8: virtual shares *)

(** C8: when the target is a virtual share and the earlier checks pass
    (not the default calendar, Depth "infinity"), deleteCalendar and
    deleteAddressBook call removeVirtualShare and nothing else, and return
    NoContent. *)
Theorem delete_virtual_share (env : Env) (self : DeleteResource) (r : Res)
    (uri : string) (p : Res) :
  isDefaultCalendar env r = false →
  depth self = "infinity" →
  isVirtualShare env r = true →
  deleteCalendar env self r uri p = ([EvRemoveVirtualShare r], inr RNoContent) ∧
  deleteAddressBook env self r uri p = ([EvRemoveVirtualShare r], inr RNoContent).
Proof.
  intros Hdef Hd Hv. unfold deleteCalendar, deleteAddressBook.
  rewrite Hdef, Hv, bool_decide_true by exact Hd. split; reflexivity.
Qed.

Lemma delete_virtual_share_witness :
  deleteCalendar (test_env (Some RNoContent) None false true false true ["a"] [] None)
    (client_delete "/cal" "/" "infinity") "/cal" "/cal" "/"
  = ([EvRemoveVirtualShare "/cal"], inr RNoContent) ∧
  deleteAddressBook (test_env (Some RNoContent) None false true false true ["a"] [] None)
    (client_delete "/cal" "/" "infinity") "/cal" "/cal" "/"
  = ([EvRemoveVirtualShare "/cal"], inr RNoContent).
Proof. apply delete_virtual_share; reflexivity. Defined.

(* ------------------------------------------------------------------ *)
(** ** C1: implicit scheduling after the delete *)

Definition env_plain_event : Env :=
  test_env (Some RNoContent) (Some 5%Z) false true false false ["a"] [] None.

(** C1 (as stated): the scheduler reports that no DELETE-triggered action
    is needed, yet [doImplicitScheduling] is called after the delete. *)
Lemma deleteCalendarResource_scheduling_counterexample :
  testImplicitSchedulingDELETE env_plain_event "/cal/a" = false ∧
  EvDoImplicit "/cal/a"
    ∈ (deleteCalendarResource env_plain_event (client_delete "/cal/a" "/cal" "0")
         "/cal/a" "/cal/a" "/cal").1.
Proof. split; [reflexivity|]. apply list_elem_of_In. vm_compute. intuition. Qed.

(** C1 (amended): [doImplicitScheduling] is called only for a client
    request with implicit scheduling allowed, only on the deleted object,
    and only after the underlying delete returned NoContent; when the
    precondition passes it is called after such a delete also when
    [testImplicitSchedulingDELETE] reported no action (the scheduler
    decides by itself whether there is anything to do). *)
Theorem deleteCalendarResource_scheduling_after_delete (env : Env) (self : DeleteResource)
    (r : Res) (uri : string) (p : Res) :
  let '(l, _) := deleteCalendarResource env self r uri p in
  (∀ x, EvDoImplicit x ∈ l →
     x = r ∧ internal_request self = false ∧ allowImplicitSchedule self = true ∧
     fileop_delete env uri r (depth self) = Some RNoContent ∧
     ∃ l1 l2, l = l1 ++ EvDelete uri r (depth self) :: l2 ∧ EvDoImplicit r ∈ l2) ∧
  ((validIfScheduleMatch env self).2 = inr () → internal_request self = false →
   allowImplicitSchedule self = true → testImplicitSchedulingDELETE env r = false →
   fileop_delete env uri r (depth self) = Some RNoContent → EvDoImplicit r ∈ l).
Proof.
  dcr_cases env self r uri p.
  all: split; [intros x Hx; in_list Hx; destruct_or?; try contradiction; simplify_eq;
               (repeat split; auto; split_at; set_solver)
              | simpl; intros; simplify_eq; try discriminate; set_solver].
Qed.

(* ------------------------------------------------------------------ *)
(** ** C9: the implicit-scheduling lock *)

(** C9: in deleteCalendarResource, once the lock has been acquired the
    last collaborator call before returning is [lock.clean()], whatever the
    exit (success, HTTPError, collaborator failure); a lock timeout never
    escapes as such, and when the lock cannot be acquired the outcome is
    Conflict, again after [lock.clean()]. *)
Theorem deleteCalendarResource_lock_released (env : Env) (self : DeleteResource)
    (r : Res) (uri : string) (p : Res) :
  let '(l, res) := deleteCalendarResource env self r uri p in
  (∀ u, EvLockAcquired u ∈ l → last l = Some (EvLockClean u)) ∧
  res ≠ inl MemcacheLockTimeoutError ∧
  ((validIfScheduleMatch env self).2 = inr () → internal_request self = false →
   allowImplicitSchedule self = true → testImplicitSchedulingDELETE env r = true →
   isVirtualShare env p = false → lock_available env (resourceUID env r) = false →
   res = inl (HTTPError CONFLICT) ∧ last l = Some (EvLockClean (resourceUID env r))).
Proof.
  dcr_cases env self r uri p.
  all: split; [intros u Hu; in_list Hu; destruct_or?; try contradiction; simplify_eq; reflexivity|].
  (* the precondition never raises a lock timeout *)
  1: split; [intros He; injection He as ->; eapply validIfScheduleMatch_no_timeout; exact Evs
            | discriminate].
  all: split; [discriminate|].
  all: intros H1 H2 H3 H4 H5 H6; try discriminate; auto.
Qed.

(* ------------------------------------------------------------------ *)
(** ** C3: quota adjustment *)

Definition env_partial_collection : Env :=
  test_env (Some (RMultiStatus {[ "/cal/x" := FORBIDDEN ]})) (Some 5%Z) false true false false
    [] [] None.

(** C3 (as stated): the file delete of a collection reports a multi-status
    (one member could not be removed), yet deleteResource adjusts the
    quota by the full old size. *)
Lemma deleteResource_quota_counterexample :
  (deleteResource env_partial_collection (client_delete "/cal" "/" "infinity") "/cal" "/cal" "/").2
    ≠ inr RNoContent ∧
  EvQuotaAdjust "/cal" (-10)
    ∈ (deleteResource env_partial_collection (client_delete "/cal" "/" "infinity")
         "/cal" "/cal" "/").1.
Proof.
  split; [vm_compute; discriminate|]. apply list_elem_of_In. vm_compute. intuition.
Qed.

(** Whether a call is a quota adjustment. *)
Definition is_quota_adjust (ev : Event) : bool :=
  match ev with EvQuotaAdjust _ _ => true | _ => false end.

(** C3 (amended): in deleteResource and deleteCalendarResource the quota
    of the deleted resource is adjusted once (there is at most one quota
    adjustment in the trace), by minus its size read before the delete,
    exactly when the resource reports quota support and the underlying
    delete returned, whatever it returned (NoContent or a multi-status);
    there is no adjustment when the delete raised or was never reached. *)
Theorem quota_adjust_after_delete (env : Env) (self : DeleteResource) (r : Res)
    (uri : string) (p : Res) :
  (let '(l, _) := deleteResource env self r uri p in
   (∀ x d, EvQuotaAdjust x d ∈ l ↔
     x = r ∧ d = (- quotaSize env r)%Z ∧ is_Some (quota env r) ∧
     is_Some (fileop_delete env uri r (depth self))) ∧
   length (List.filter is_quota_adjust l) ≤ 1) ∧
  (let '(l, _) := deleteCalendarResource env self r uri p in
   (∀ x d, EvQuotaAdjust x d ∈ l ↔
     x = r ∧ d = (- quotaSize env r)%Z ∧ is_Some (quota env r) ∧
     EvDelete uri r (depth self) ∈ l ∧ is_Some (fileop_delete env uri r (depth self))) ∧
   length (List.filter is_quota_adjust l) ≤ 1).
Proof.
  split.
  - unfold deleteResource, delete, quotaSizeAdjust, bumpSyncToken, index_deleteResource.
    unfold_M.
    destruct (fileop_delete env uri r (depth self)) as [[|ms]|] eqn:Hd;
      destruct (quota env r) eqn:Hq;
      destruct (isPseudoCalendarCollectionResource env p); simpl.
    all: split; [|simpl; lia].
    all: intros x d; split; intros H.
    all: first
      [ solve [in_list H; destruct_or?; try contradiction; simplify_eq; naive_solver]
      | solve [destruct H as (-> & -> & [? ?] & [? ?]); simplify_eq; set_solver] ].
  - dcr_cases env self r uri p.
    all: split; [|simpl; lia].
    all: intros x d; split; intros H.
    all: first
      [ solve [in_list H; destruct_or?; try contradiction; simplify_eq;
               repeat split; eauto; set_solver]
      | solve [destruct H as (-> & -> & [? ?] & Hin & [? ?]); simplify_eq; set_solver] ].
Qed.

(* ------------------------------------------------------------------ *)
(** ** C2: sync tokens *)

Definition env_failing_collection : Env :=
  test_env None None false true false false [] [] None.

(** C2 (as stated): the file delete of the calendar collection fails, yet
    deleteCalendar has already advanced the collection's sync token. *)
Lemma deleteCalendar_bump_counterexample :
  (deleteCalendar env_failing_collection (client_delete "/cal" "/" "infinity") "/cal" "/cal" "/")
  = ([EvBumpSyncToken "/cal"; EvDelete "/cal" "/cal" "infinity"], inl CollaboratorError).
Proof. reflexivity. Qed.

(** C2 (amended): deleteResource advances the parent's sync token and
    updates its index once each (no call occurs twice), exactly when the
    underlying delete returned NoContent and the parent is a calendar
    collection; deleteCalendar, once past its checks and with every child
    found, makes exactly these calls in order: the children's deletes in
    listing order, the share downgrade if shared, the collection's own bumpSyncToken, once,
    then the collection's own delete, then at most [deletedCalendar]: the
    own bump happens whether or not that delete then succeeds. *)
Theorem syncToken_bumps (env : Env) (self : DeleteResource) (r : Res) (uri : string)
    (p : Res) :
  (let '(l, _) := deleteResource env self r uri p in
   NoDup l ∧
   (∀ c, EvBumpSyncToken c ∈ l ↔
     c = p ∧ isPseudoCalendarCollectionResource env p = true ∧
     fileop_delete env uri r (depth self) = Some RNoContent) ∧
   (∀ c n, EvIndexDelete c n ∈ l ↔
     c = p ∧ n = basename env r ∧ isPseudoCalendarCollectionResource env p = true ∧
     fileop_delete env uri r (depth self) = Some RNoContent)) ∧
  (isDefaultCalendar env r = false → depth self = "infinity" → isVirtualShare env r = false →
   all_located env r (listChildren env r) →
   ∃ tail, (deleteCalendar env self r uri p).1 =
     concat (map (child_trace env (deleteCalendarResource env self) r uri) (listChildren env r)) ++
     (if isShared env r then [EvDowngradeFromShare r] else []) ++
     EvBumpSyncToken r :: (deleteResource env self r uri p).1 ++ tail ∧
     (tail = [] ∨ tail = [EvDeletedCalendar r])).
Proof.
  split.
  - unfold deleteResource, delete, quotaSizeAdjust, bumpSyncToken, index_deleteResource.
    unfold_M.
    destruct (fileop_delete env uri r (depth self)) as [[|ms]|] eqn:Hd;
      destruct (quota env r) eqn:Hq;
      destruct (isPseudoCalendarCollectionResource env p) eqn:Hp; simpl.
    all: split; [repeat constructor; set_solver|].
    all: split; [intros c; split; intros H|intros c n; split; intros H].
    all: first
      [ solve [in_list H; destruct_or?; try contradiction; simplify_eq; naive_solver]
      | solve [destruct H as (-> & ? & ?); simplify_eq; set_solver]
      | solve [destruct H as (-> & -> & ? & ?); simplify_eq; set_solver] ].
  - intros Hdef Hd Hv Hloc.
    unfold deleteCalendar. rewrite Hdef, Hv, bool_decide_true by exact Hd. simpl.
    rewrite deleteChildren_spec by exact Hloc. unfold bumpSyncToken. unfold_M. simpl.
    destruct (deleteResource env self r uri p) as [l [e|resp]].
    + exists []. split; [|left; reflexivity].
      destruct (isShared env r); simpl; rewrite ?app_nil_r, <-?app_assoc; reflexivity.
    + destruct (isShared env r); simpl;
        destruct (is_no_content (rq_response (rq_merge resp
          (failed_errors env (deleteCalendarResource env self) r uri (listChildren env r) ∅))));
        simpl; eexists; (split; [rewrite <-?app_assoc; reflexivity|]); auto.
Qed.

(* ------------------------------------------------------------------ *)
(** ** C10: no lock for address-book objects *)

(** C10: deleteAddressBookResource never takes a lock, so its
    MemcacheLockTimeoutError handler never fires: the method behaves as
    its [try] body alone, makes no lock call, and never ends in a Conflict
    error. *)
Theorem deleteAddressBookResource_no_lock (env : Env) (self : DeleteResource) (r : Res)
    (uri : string) (p : Res) :
  deleteAddressBookResource env self r uri p =
    deleteAddressBookResource_body env self r uri p (quota env r)
      (match quota env r with Some _ => quotaSize env r | None => 0%Z end) ∧
  (let '(l, res) := deleteAddressBookResource env self r uri p in
   (∀ u, (EvLockAcquired u ∉ l) ∧ (EvLockClean u ∉ l)) ∧ res ≠ inl (HTTPError CONFLICT)).
Proof.
  unfold deleteAddressBookResource, deleteAddressBookResource_body, delete, quotaSizeAdjust,
    bumpSyncToken, index_deleteResource.
  unfold_M.
  destruct (fileop_delete env uri r (depth self)) as [[|ms]|] eqn:Hd;
    destruct (quota env r) eqn:Hq; simpl.
  all: split; [reflexivity|].
  all: split; [intros u; split; set_solver | discriminate].
Qed.

(* ------------------------------------------------------------------ *)
(** ** C4: per-child failures of a calendar collection delete *)

(** C4 (as stated): no child fails (the collection has none), but the
    file delete of the collection reports a member it could not remove;
    the merged outcome is a multi-status, not success. *)
Lemma deleteCalendar_errors_counterexample :
  length (listChildren env_partial_collection "/cal") = 0 ∧
  (deleteCalendar env_partial_collection (client_delete "/cal" "/" "infinity") "/cal" "/cal" "/").2
    = inr (RMultiStatus {[ "/cal/x" := FORBIDDEN ]}).
Proof. split; reflexivity. Qed.

(** C4 (amended): in deleteCalendar past its checks, the error queue [m]
    built by the loop records each child whose delete raises under its
    child URI with BadRequest, and nothing else.  When every child is found,
    every child is deleted in listing order whatever happens to the others'
    deletes (the trace starts with each child's calls in turn), and the
    outcome is the collection's own delete merged with [m]: its failure
    propagates, a multi-status from it is merged over [m], NoContent leaves
    [m].  With distinct child names and a NoContent own delete, K failed
    children give exactly K entries and the outcome is NoContent exactly
    when K = 0.  A child that is not found (the lookup raises outside the
    [try]) aborts the delete with that failure, after the children before
    it and before any change to the collection itself. *)
Theorem deleteCalendar_child_errors (env : Env) (self : DeleteResource) (r : Res)
    (uri : string) (p : Res) :
  isDefaultCalendar env r = false → depth self = "infinity" → isVirtualShare env r = false →
  let ns := listChildren env r in
  let failed n := child_failed env (deleteCalendarResource env self) r uri n in
  let m := failed_errors env (deleteCalendarResource env self) r uri ns ∅ in
  let K := length (filter (λ n, failed n = true) ns) in
  (∀ k v, m !! k = Some v ↔
     v = BAD_REQUEST ∧ ∃ n, n ∈ ns ∧ failed n = true ∧ k = joinURL uri n) ∧
  (all_located env r ns →
   (∃ tail, (deleteCalendar env self r uri p).1 =
      concat (map (child_trace env (deleteCalendarResource env self) r uri) ns) ++ tail) ∧
   (deleteCalendar env self r uri p).2 =
     match fileop_delete env uri r (depth self) with
     | None => inl CollaboratorError
     | Some resp => inr (rq_response (rq_merge resp m))
     end ∧
   (NoDup ns → fileop_delete env uri r (depth self) = Some RNoContent →
    (deleteCalendar env self r uri p).2 = inr (rq_response m) ∧
    size m = K ∧ (rq_response m = RNoContent ↔ K = 0))) ∧
  (∀ pre n post, ns = pre ++ n :: post → all_located env r pre →
   locateChildResource env r n = None →
   deleteCalendar env self r uri p =
     (concat (map (child_trace env (deleteCalendarResource env self) r uri) pre),
      inl CollaboratorError)).
Proof.
  intros Hdef Hd Hv ns failed m K.
  split; [|split].
  - intros k v. unfold m. rewrite failed_errors_lookup by apply map_Forall_empty.
    rewrite lookup_empty. naive_solver.
  - intros Hloc.
    assert (Hrun : ∃ tail, deleteCalendar env self r uri p =
      (concat (map (child_trace env (deleteCalendarResource env self) r uri) ns) ++ tail,
       match fileop_delete env uri r (depth self) with
       | None => inl CollaboratorError
       | Some resp => inr (rq_response (rq_merge resp m))
       end)).
    { unfold deleteCalendar. rewrite Hdef, Hv, bool_decide_true by exact Hd. simpl.
      rewrite deleteChildren_spec by exact Hloc.
      unfold deleteResource, delete, quotaSizeAdjust, bumpSyncToken, index_deleteResource.
      unfold_M. fold ns. fold m.
      destruct (fileop_delete env uri r (depth self)) as [resp|].
      + destruct (quota env r); simpl;
          repeat match goal with |- context [if ?c then _ else _] => destruct c; simpl end;
          eexists; reflexivity.
      + destruct (isShared env r), (quota env r); simpl; eexists; reflexivity. }
    destruct Hrun as [tail Hrun]. rewrite Hrun. split; [eexists; reflexivity|].
    split; [reflexivity|].
    intros Hnd Hfd. rewrite Hfd.
    assert (Hsize : size m = K).
    { unfold m. rewrite failed_errors_size; [rewrite map_size_empty; reflexivity | exact Hnd |].
      intros. apply lookup_empty. }
    split; [reflexivity|]. split; [exact Hsize|].
    unfold rq_response. rewrite <- Hsize, map_size_empty_iff.
    destruct (decide (m = ∅)); naive_solver.
  - intros pre n post Hns Hpre Hn.
    unfold deleteCalendar. rewrite Hdef, Hv, bool_decide_true by exact Hd. simpl.
    fold ns. rewrite Hns, deleteChildren_lost by assumption. reflexivity.
Qed.

Lemma deleteCalendar_child_errors_witness :
  let e := test_env (Some RNoContent) None false true false false ["a"; "b"] ["b"] None in
  let del := deleteCalendarResource e (client_delete "/cal" "/" "infinity") in
  let m := failed_errors e del "/cal" "/cal" (listChildren e "/cal") ∅ in
  (deleteCalendar e (client_delete "/cal" "/" "infinity") "/cal" "/cal" "/").2
    = inr (rq_response m) ∧
  size m = length (filter (λ n, child_failed e del "/cal" "/cal" n = true) (listChildren e "/cal")) ∧
  (rq_response m = RNoContent ↔
   length (filter (λ n, child_failed e del "/cal" "/cal" n = true) (listChildren e "/cal")) = 0).
Proof.
  intros e del m.
  destruct (deleteCalendar_child_errors e (client_delete "/cal" "/" "infinity") "/cal" "/cal" "/"
              eq_refl eq_refl eq_refl) as (_ & H & _).
  destruct H as (_ & _ & H); [intros n _; eexists; reflexivity|].
  apply H; [vm_compute; repeat constructor; set_solver | reflexivity].
Defined.

(* ------------------------------------------------------------------ *)
(** ** Concrete instances of the conditional parts *)

Lemma deleteCalendarResource_scheduling_after_delete_witness :
  EvDoImplicit "/cal/a"
    ∈ (deleteCalendarResource env_plain_event (client_delete "/cal/a" "/cal" "0")
         "/cal/a" "/cal/a" "/cal").1.
Proof.
  pose proof (deleteCalendarResource_scheduling_after_delete env_plain_event
    (client_delete "/cal/a" "/cal" "0") "/cal/a" "/cal/a" "/cal") as H.
  destruct (deleteCalendarResource env_plain_event (client_delete "/cal/a" "/cal" "0")
              "/cal/a" "/cal/a" "/cal") as [l res].
  destruct H as [_ H]. apply H; reflexivity.
Defined.

Lemma syncToken_bumps_witness :
  let e := test_env None None false true false false ["a"; "b"] [] None in
  ∃ tail, (deleteCalendar e (client_delete "/cal" "/" "infinity") "/cal" "/cal" "/").1 =
    concat (map (child_trace e (deleteCalendarResource e (client_delete "/cal" "/" "infinity"))
                   "/cal" "/cal") (listChildren e "/cal")) ++
    (if isShared e "/cal" then [EvDowngradeFromShare "/cal"] else []) ++
    EvBumpSyncToken "/cal" ::
      (deleteResource e (client_delete "/cal" "/" "infinity") "/cal" "/cal" "/").1 ++ tail ∧
    (tail = [] ∨ tail = [EvDeletedCalendar "/cal"]).
Proof.
  intros e.
  apply (syncToken_bumps e (client_delete "/cal" "/" "infinity") "/cal" "/cal" "/");
    [reflexivity | reflexivity | reflexivity | intros n _; eexists; reflexivity].
Defined.

Definition env_busy_lock : Env :=
  test_env (Some RNoContent) None true false false false ["a"] [] None.

Lemma deleteCalendarResource_lock_released_witness :
  (deleteCalendarResource env_busy_lock (client_delete "/cal/a" "/cal" "0")
     "/cal/a" "/cal/a" "/cal").2 = inl (HTTPError CONFLICT) ∧
  last (deleteCalendarResource env_busy_lock (client_delete "/cal/a" "/cal" "0")
          "/cal/a" "/cal/a" "/cal").1 = Some (EvLockClean "uid-1").
Proof.
  pose proof (deleteCalendarResource_lock_released env_busy_lock
    (client_delete "/cal/a" "/cal" "0") "/cal/a" "/cal/a" "/cal") as H.
  destruct (deleteCalendarResource env_busy_lock (client_delete "/cal/a" "/cal" "0")
              "/cal/a" "/cal/a" "/cal") as [l res].
  destruct H as (_ & _ & H). apply H; reflexivity.
Defined.

(* ------------------------------------------------------------------ *)
(** ** Further properties of the methods *)

(** X1: [validIfScheduleMatch] makes no collaborator call and never fails
    for an internal request or when the If-Schedule-Tag-Match header is
    absent; for a client request with a non-empty header on an existing
    resource with a stored schedule tag, it passes when the tag equals the
    header and fails with PreconditionFailed otherwise. *)
Theorem validIfScheduleMatch_outcomes (env : Env) (self : DeleteResource) :
  (internal_request self = true → validIfScheduleMatch env self = ([], inr ())) ∧
  (if_schedule_tag_match self = None → validIfScheduleMatch env self = ([], inr ())) ∧
  (∀ h t, internal_request self = false → if_schedule_tag_match self = Some h → h ≠ "" →
     exists_ env (resource self) = true → schedule_tag env (resource self) = Some t →
     validIfScheduleMatch env self =
       ([], if bool_decide (t = h) then inr () else inl (HTTPError PRECONDITION_FAILED))).
Proof.
  unfold validIfScheduleMatch.
  split; [intros ->; reflexivity|]. split.
  - intros ->. destruct (internal_request self); reflexivity.
  - intros h t -> -> Hh -> ->. simpl. rewrite decide_False by exact Hh.
    destruct (bool_decide (t = h)); reflexivity.
Qed.

Lemma validIfScheduleMatch_outcomes_witness :
  validIfScheduleMatch (test_env None None false true false false [] [] (Some "1"))
    {| if_schedule_tag_match := Some "2"; resource := "/cal/a"; resource_uri := "/cal/a";
       parent := "/cal"; depth := "0"; internal_request := false; allowImplicitSchedule := true |}
  = ([], inl (HTTPError PRECONDITION_FAILED)).
Proof.
  destruct (validIfScheduleMatch_outcomes (test_env None None false true false false [] [] (Some "1"))
    {| if_schedule_tag_match := Some "2"; resource := "/cal/a"; resource_uri := "/cal/a";
       parent := "/cal"; depth := "0"; internal_request := false; allowImplicitSchedule := true |})
    as (_ & _ & H).
  rewrite (H "2" "1"); [reflexivity | reflexivity | reflexivity | discriminate | reflexivity | reflexivity].
Defined.

(** X2: a failing schedule-tag precondition stops deleteCalendarResource
    before any collaborator call: the same error, an empty trace (no
    delete, no quota change, no lock, no scheduling test). *)
Theorem deleteCalendarResource_precondition_first (env : Env) (self : DeleteResource)
    (r : Res) (uri : string) (p : Res) (e : Exn) :
  (validIfScheduleMatch env self).2 = inl e →
  deleteCalendarResource env self r uri p = ([], inl e).
Proof.
  intros H. pose proof (validIfScheduleMatch_trace env self) as Hv.
  unfold deleteCalendarResource. unfold_M.
  destruct (validIfScheduleMatch env self) as [l0 r0]. simpl in *. subst. reflexivity.
Qed.

(** X3: when implicit scheduling would act on an object of a calendar
    shared to this user (a virtual share), deleteCalendarResource refuses
    with Forbidden right after the scheduling test: nothing is deleted,
    no lock is taken, the quota is untouched. *)
Theorem deleteCalendarResource_sharee_forbidden (env : Env) (self : DeleteResource)
    (r : Res) (uri : string) (p : Res) :
  (validIfScheduleMatch env self).2 = inr () → internal_request self = false →
  allowImplicitSchedule self = true → testImplicitSchedulingDELETE env r = true →
  isVirtualShare env p = true →
  deleteCalendarResource env self r uri p = ([EvTestImplicit r], inl (HTTPError FORBIDDEN)).
Proof.
  intros H1 H2 H3 H4 H5. pose proof (validIfScheduleMatch_trace env self) as Hv.
  dcr_unfold. destruct (validIfScheduleMatch env self) as [l0 r0]. simpl in *. subst.
  rewrite H2, H3, H4, H5. reflexivity.
Qed.

(** X4: for an internal request, or when implicit scheduling is not
    allowed, deleteCalendarResource never tests or runs implicit
    scheduling and never takes or releases the scheduling lock. *)
Theorem deleteCalendarResource_internal_no_scheduling (env : Env) (self : DeleteResource)
    (r : Res) (uri : string) (p : Res) :
  (internal_request self = true ∨ allowImplicitSchedule self = false) →
  let '(l, _) := deleteCalendarResource env self r uri p in
  ∀ x u, (EvTestImplicit x ∉ l) ∧ (EvDoImplicit x ∉ l) ∧ (EvLockAcquired u ∉ l) ∧ (EvLockClean u ∉ l).
Proof.
  dcr_cases env self r uri p.
  all: first [ intros [? | ?]; discriminate | intros _ x u; set_solver ].
Qed.

(** X5: deleteCalendarResource advances the parent's sync token and
    removes the child's index entry (under its basename) exactly when the
    underlying delete ran and returned NoContent, with no check of the
    parent's kind; a normal return hands back what the underlying delete
    returned. *)
Theorem deleteCalendarResource_commit (env : Env) (self : DeleteResource)
    (r : Res) (uri : string) (p : Res) :
  let '(l, res) := deleteCalendarResource env self r uri p in
  (∀ c, EvBumpSyncToken c ∈ l ↔
     c = p ∧ EvDelete uri r (depth self) ∈ l ∧
     fileop_delete env uri r (depth self) = Some RNoContent) ∧
  (∀ c n, EvIndexDelete c n ∈ l ↔
     c = p ∧ n = basename env r ∧ EvDelete uri r (depth self) ∈ l ∧
     fileop_delete env uri r (depth self) = Some RNoContent) ∧
  (∀ v, res = inr v → EvDelete uri r (depth self) ∈ l ∧
     fileop_delete env uri r (depth self) = Some v).
Proof.
  dcr_cases env self r uri p.
  all: split; [intros c; split; intros H;
               [in_list H; destruct_or?; try contradiction; simplify_eq; set_solver
               | destruct H as (-> & ? & ?); simplify_eq; set_solver]|].
  all: split; [intros c n; split; intros H;
               [in_list H; destruct_or?; try contradiction; simplify_eq; set_solver
               | destruct H as (-> & -> & ? & ?); simplify_eq; set_solver]|].
  all: intros v Hv; simplify_eq; set_solver.
Qed.

(** X6: when the scheduling step after a successful delete fails, the
    request fails although the object is already deleted, its parent's
    sync token advanced and its index entry removed; the last call made is
    the failed scheduling call, or the release of the scheduling lock when
    one was taken (the scheduling test reported an action). *)
Theorem deleteCalendarResource_scheduling_failure_after_commit (env : Env)
    (self : DeleteResource) (r : Res) (uri : string) (p : Res) :
  (validIfScheduleMatch env self).2 = inr () → internal_request self = false →
  allowImplicitSchedule self = true →
  (testImplicitSchedulingDELETE env r = true →
   isVirtualShare env p = false ∧ lock_available env (resourceUID env r) = true) →
  fileop_delete env uri r (depth self) = Some RNoContent → implicit_fails env r = true →
  let '(l, res) := deleteCalendarResource env self r uri p in
  res = inl CollaboratorError ∧ EvDelete uri r (depth self) ∈ l ∧
  EvBumpSyncToken p ∈ l ∧ EvIndexDelete p (basename env r) ∈ l ∧ EvDoImplicit r ∈ l ∧
  last l = Some (if testImplicitSchedulingDELETE env r then EvLockClean (resourceUID env r)
                 else EvDoImplicit r).
Proof.
  dcr_cases env self r uri p.
  all: intros H1 H2 H3 H4 H5 H6; try discriminate;
    try (destruct (H4 eq_refl) as [? ?]; discriminate).
  all: repeat split; try reflexivity; set_solver.
Qed.

(** Calls that belong to implicit scheduling and its lock. *)
Definition is_scheduling_event (ev : Event) : bool :=
  match ev with
  | EvTestImplicit _ | EvDoImplicit _ | EvLockAcquired _ | EvLockClean _ => true
  | _ => false
  end.

(** Calls that only a collection delete makes. *)
Definition is_collection_event (ev : Event) : bool :=
  match ev with
  | EvRemoveVirtualShare _ | EvDowngradeFromShare _ | EvDeletedCalendar _ => true
  | _ => false
  end.

Lemma deleteResource_events env self r uri p :
  Forall (λ ev, is_scheduling_event ev = false ∧ is_collection_event ev = false)
    (deleteResource env self r uri p).1.
Proof.
  unfold deleteResource, delete, quotaSizeAdjust, bumpSyncToken, index_deleteResource.
  unfold_M.
  destruct (fileop_delete env uri r (depth self)) as [[|ms]|];
    destruct (quota env r); destruct (isPseudoCalendarCollectionResource env p); simpl;
    repeat constructor.
Qed.

Lemma deleteAddressBookResource_events env self r uri p :
  Forall (λ ev, is_scheduling_event ev = false ∧ is_collection_event ev = false)
    (deleteAddressBookResource env self r uri p).1.
Proof.
  unfold deleteAddressBookResource, deleteAddressBookResource_body, delete, quotaSizeAdjust,
    bumpSyncToken, index_deleteResource.
  unfold_M.
  destruct (fileop_delete env uri r (depth self)) as [[|ms]|]; destruct (quota env r); simpl;
    repeat constructor.
Qed.

Lemma deleteCalendarResource_events env self r uri p :
  Forall (λ ev, is_collection_event ev = false) (deleteCalendarResource env self r uri p).1.
Proof. dcr_cases env self r uri p; repeat constructor. Qed.

Lemma deleteChildren_events env (P : Event → Prop) del_child r uri ns q :
  (∀ c u, Forall P (del_child c u r).1) →
  Forall P (deleteChildren env del_child r uri ns q).1.
Proof.
  intros H. revert q; induction ns as [|n ns IH]; intros q; simpl; [constructor|].
  destruct (locateChildResource env r n) as [c|]; [|constructor].
  unfold_M. specialize (H c (joinURL uri n)).
  destruct (del_child c (joinURL uri n) r) as [l [e|a]]; simpl in *.
  all: match goal with |- context [deleteChildren _ _ _ _ _ ?q'] =>
         specialize (IH q'); destruct (deleteChildren _ _ _ _ _ q') end.
  all: simpl in *; rewrite ?app_nil_r; apply Forall_app; auto.
Qed.


Lemma applyToCollections_events (P : Event → Prop) f cols q :
  (∀ c u q', Forall P (f c u ([], inr q')).1) →
  Forall P (applyToCollections f cols q).1.
Proof.
  intros Hf. revert q; induction cols as [|[c u] cols IH]; intros q; simpl; [constructor|].
  unfold mret, M_ret, mbind, M_bind. specialize (Hf c u q).
  destruct (f c u ([], inr q)) as [l [e|q']]; simpl in *; [exact Hf|].
  specialize (IH q'). destruct (applyToCollections f cols q'). simpl in *.
  apply Forall_app; auto.
Qed.

Lemma applyToCollections_raises f cols q e :
  (∀ c u q', (f c u ([], inr q')).2 ≠ inl e) →
  (applyToCollections f cols q).2 ≠ inl e.
Proof.
  intros Hf. revert q; induction cols as [|[c u] cols IH]; intros q; simpl; [discriminate|].
  unfold mret, M_ret, mbind, M_bind. specialize (Hf c u q).
  destruct (f c u ([], inr q)) as [l [e'|q']]; simpl in *; [exact Hf|].
  specialize (IH q'). destruct (applyToCollections f cols q'). simpl in *. exact IH.
Qed.

Lemma deleteCalendarResource_no_scheduling env self r uri p :
  (internal_request self = true ∨ allowImplicitSchedule self = false) →
  Forall (λ ev, is_scheduling_event ev = false) (deleteCalendarResource env self r uri p).1.
Proof.
  dcr_cases env self r uri p.
  all: first [ intros [? | ?]; discriminate | intros _; repeat constructor ].
Qed.

Lemma deleteCalendar_events env self r uri p (P : Event → Prop) :
  P (EvBumpSyncToken r) → P (EvRemoveVirtualShare r) → P (EvDowngradeFromShare r) →
  P (EvDeletedCalendar r) →
  (∀ c u, Forall P (deleteCalendarResource env self c u r).1) →
  Forall P (deleteResource env self r uri p).1 →
  Forall P (deleteCalendar env self r uri p).1.
Proof.
  intros Hb Hv Hs Hd Hc Hr. unfold deleteCalendar.
  destruct (isDefaultCalendar env r); [constructor|].
  destruct (bool_decide (depth self = "infinity")); simpl; [|constructor].
  destruct (isVirtualShare env r); [repeat constructor; done|].
  pose proof (deleteChildren_events env P (deleteCalendarResource env self) r uri
    (listChildren env r) ∅ Hc) as Hch.
  destruct (deleteChildren env _ r uri _ ∅) as [lc [e|errs]]; [exact Hch|].
  unfold bumpSyncToken. unfold_M.
  destruct (deleteResource env self r uri p) as [lr [e|resp]]; simpl in Hr.
  all: destruct (isShared env r); simpl.
  all: try destruct (is_no_content (rq_response (rq_merge resp errs))); simpl.
  all: simpl in Hch; rewrite ?app_nil_r;
    rewrite ?Forall_app; repeat split; repeat constructor; auto.
  all: apply Forall_app; split; [exact Hr | constructor; [exact Hd | constructor]].
Qed.

Lemma deleteAddressBook_events env self r uri p (P : Event → Prop) :
  P (EvBumpSyncToken r) → P (EvRemoveVirtualShare r) → P (EvDowngradeFromShare r) →
  (∀ c u, Forall P (deleteAddressBookResource env self c u r).1) →
  Forall P (deleteResource env self r uri p).1 →
  Forall P (deleteAddressBook env self r uri p).1.
Proof.
  intros Hb Hv Hs Hc Hr. unfold deleteAddressBook.
  destruct (bool_decide (depth self = "infinity")); simpl; [|constructor].
  destruct (isVirtualShare env r); [repeat constructor; done|].
  pose proof (deleteChildren_events env P (deleteAddressBookResource env self) r uri
    (listChildren env r) ∅ Hc) as Hch.
  destruct (deleteChildren env _ r uri _ ∅) as [lc [e|errs]]; [exact Hch|]. simpl in Hch.
  unfold bumpSyncToken. unfold_M.
  destruct (deleteResource env self r uri p) as [lr [e|resp]]; simpl in Hr.
  all: destruct (isShared env r); simpl.
  all: rewrite ?app_nil_r, ?Forall_app; repeat split; repeat constructor; auto.
Qed.

Lemma deleteCollection_events env self (P : Event → Prop) :
  (∀ c u p, Forall P (deleteCalendar env self c u p).1) →
  Forall P (deleteResource env self (resource self) (resource_uri self) (parent self)).1 →
  Forall P (deleteCollection env self).1.
Proof.
  intros Hc Hr. unfold deleteCollection.
  destruct (bool_decide (depth self = "infinity")); simpl; [|constructor].
  match goal with |- context [applyToCollections ?f ?cols ∅] =>
    pose proof (applyToCollections_events P f cols ∅) as Ha;
    destruct (applyToCollections f cols ∅) as [la [e|errs]] end.
  all: unfold_M; simpl in *.
  all: assert (Hla : Forall P la) by
    (apply Ha; intros c u q; simpl; specialize (Hc c u (locateParent env c u));
     destruct (deleteCalendar _ _ _ _ _) as [l [?|?]]; simpl in *; rewrite ?app_nil_r; exact Hc).
  - exact Hla.
  - destruct (deleteResource env self _ _ _) as [lr [e|resp]]; simpl in *;
      rewrite ?app_nil_r; apply Forall_app; split; auto.
Qed.

Lemma deleteCollectionAB_events env self (P : Event → Prop) :
  (∀ c u p, Forall P (deleteAddressBook env self c u p).1) →
  Forall P (deleteResource env self (resource self) (resource_uri self) (parent self)).1 →
  Forall P (deleteCollectionAB env self).1.
Proof.
  intros Hc Hr. unfold deleteCollectionAB.
  destruct (bool_decide (depth self = "infinity")); simpl; [|constructor].
  match goal with |- context [applyToCollections ?f ?cols ∅] =>
    pose proof (applyToCollections_events P f cols ∅) as Ha;
    destruct (applyToCollections f cols ∅) as [la [e|errs]] end.
  all: unfold_M; simpl in *.
  all: assert (Hla : Forall P la) by
    (apply Ha; intros c u q; simpl; specialize (Hc c u (locateParent env c u));
     destruct (deleteAddressBook _ _ _ _ _) as [l [?|?]]; simpl in *; rewrite ?app_nil_r; exact Hc).
  - exact Hla.
  - destruct (deleteResource env self _ _ _) as [lr [e|resp]]; simpl in *;
      rewrite ?app_nil_r; apply Forall_app; split; auto.
Qed.

(** X7: whatever [run] dispatches to (including the calendar objects of a
    deleted calendar or of a deleted tree), an internal request or one that
    disallows implicit scheduling never tests or runs implicit scheduling
    and never takes the scheduling lock. *)
Theorem run_internal_no_scheduling (env : Env) (self : DeleteResource) :
  (internal_request self = true ∨ allowImplicitSchedule self = false) →
  Forall (λ ev, is_scheduling_event ev = false) (run env self).1.
Proof.
  intros Hi.
  assert (Hr : ∀ r uri p, Forall (λ ev, is_scheduling_event ev = false)
                            (deleteResource env self r uri p).1).
  { intros. eapply Forall_impl; [apply deleteResource_events | naive_solver]. }
  assert (Hab : ∀ r uri p, Forall (λ ev, is_scheduling_event ev = false)
                            (deleteAddressBookResource env self r uri p).1).
  { intros. eapply Forall_impl; [apply deleteAddressBookResource_events | naive_solver]. }
  assert (Hc : ∀ r uri p, Forall (λ ev, is_scheduling_event ev = false)
                            (deleteCalendar env self r uri p).1).
  { intros. apply deleteCalendar_events; auto.
    intros. apply deleteCalendarResource_no_scheduling. exact Hi. }
  unfold run.
  destruct (isCalendarCollectionResource env (parent self));
    [apply deleteCalendarResource_no_scheduling; exact Hi|].
  destruct (isCalendarCollectionResource env (resource self)); [apply Hc|].
  destruct (isAddressBookCollectionResource env (parent self)); [apply Hab|].
  destruct (isAddressBookCollectionResource env (resource self));
    [apply deleteAddressBook_events; auto|].
  destruct (isCollection env (resource self)); [apply deleteCollection_events; auto | apply Hr].
Qed.

(** X8: a delete that [run] dispatches to the address-book paths never
    tests or runs implicit scheduling, never takes a lock and never calls
    [deletedCalendar]. *)
Theorem run_addressbook_no_calendar_steps (env : Env) (self : DeleteResource) :
  isCalendarCollectionResource env (parent self) = false →
  isCalendarCollectionResource env (resource self) = false →
  isAddressBookCollectionResource env (parent self) = true ∨
    isAddressBookCollectionResource env (resource self) = true →
  Forall (λ ev, is_scheduling_event ev = false ∧ ∀ x, ev ≠ EvDeletedCalendar x)
    (run env self).1.
Proof.
  intros Hp Hr Hab.
  assert (Hx : ∀ l, Forall (λ ev, is_scheduling_event ev = false ∧ is_collection_event ev = false) l →
                    Forall (λ ev, is_scheduling_event ev = false ∧ ∀ x, ev ≠ EvDeletedCalendar x) l).
  { intros l H. eapply Forall_impl; [exact H|]. intros ev [H1 H2]. split; [exact H1|].
    intros x ->. discriminate. }
  unfold run. rewrite Hp, Hr.
  destruct (isAddressBookCollectionResource env (parent self)) eqn:Hap;
    [apply Hx, deleteAddressBookResource_events|].
  destruct Hab as [Hab|Hab]; [discriminate|]. rewrite Hab.
  apply deleteAddressBook_events; try (split; [reflexivity | intros x; discriminate]).
  - intros c u. apply Hx, deleteAddressBookResource_events.
  - apply Hx, deleteResource_events.
Qed.

Ltac trace_mem :=
  repeat match goal with
  | H : _ ∈ _ ++ _ |- _ => apply elem_of_app in H as [H|H]
  | H : _ ∈ _ :: _ |- _ => apply elem_of_cons in H as [H|H]
  | H : _ ∈ [] |- _ => apply elem_of_nil in H; contradiction
  | H : ?x ∈ ?l, Hf : ∀ y, y ∈ ?l → _ |- _ => apply Hf in H; simpl in H;
      first [discriminate | destruct H as [_ H]; discriminate | destruct H as [H _]; discriminate]
  end.

(** X9: in deleteCalendar past its checks, with every child found,
    [deletedCalendar] is called exactly when the final response is
    NoContent, then once, on the collection itself, as the last call;
    otherwise it is not called at all.  [downgradeFromShare] is called
    exactly when the collection is shared; the virtual-share removal is
    never called. *)
Theorem deleteCalendar_cleanup (env : Env) (self : DeleteResource) (r : Res)
    (uri : string) (p : Res) :
  isDefaultCalendar env r = false → depth self = "infinity" → isVirtualShare env r = false →
  all_located env r (listChildren env r) →
  let '(l, res) := deleteCalendar env self r uri p in
  ((res = inr RNoContent ∧
    ∃ l', l = l' ++ [EvDeletedCalendar r] ∧ ∀ x, EvDeletedCalendar x ∉ l') ∨
   (res ≠ inr RNoContent ∧ ∀ x, EvDeletedCalendar x ∉ l)) ∧
  (EvDowngradeFromShare r ∈ l ↔ isShared env r = true) ∧
  (∀ x, EvRemoveVirtualShare x ∉ l).
Proof.
  intros Hdef Hd Hv Hloc.
  pose proof (deleteChildren_events env (λ ev, is_collection_event ev = false)
    (deleteCalendarResource env self) r uri (listChildren env r) ∅
    (λ c u, deleteCalendarResource_events env self c u r)) as Hc.
  pose proof (deleteResource_events env self r uri p) as Hr.
  unfold deleteCalendar. rewrite Hdef, Hv, bool_decide_true by exact Hd. simpl.
  rewrite deleteChildren_spec in Hc |- * by exact Hloc. simpl in Hc.
  set (lc := concat _) in Hc |- *.
  set (errs := failed_errors _ _ _ _ _ _).
  unfold bumpSyncToken. unfold_M.
  destruct (deleteResource env self r uri p) as [lr [e|resp]]; simpl in Hr.
  all: destruct (isShared env r) eqn:Hs; simpl.
  all: try destruct (is_no_content (rq_response (rq_merge resp errs))) eqn:Hnc; simpl.
  all: rewrite Forall_forall in Hc, Hr.
  all: split; [|split; [split; intros H;
                         [solve [reflexivity | trace_mem; simplify_eq]
                         | solve [discriminate | set_solver]]
                       | intros x H; trace_mem; simplify_eq]].
  all: first
    [ right; split; [discriminate | intros x H; trace_mem; simplify_eq]
    | left; split;
        [destruct (rq_response (rq_merge resp errs)); simpl in Hnc; congruence|];
      eexists; split;
        [rewrite ?app_comm_cons, ?app_assoc; reflexivity | intros x H; trace_mem; simplify_eq]
    | right; split;
        [destruct (rq_response (rq_merge resp errs)); simpl in Hnc; congruence
        | intros x H; trace_mem; simplify_eq] ].
Qed.

Lemma deleteResource_raises env self r uri p e :
  (deleteResource env self r uri p).2 = inl e → e = CollaboratorError.
Proof.
  unfold deleteResource, delete, quotaSizeAdjust, bumpSyncToken, index_deleteResource.
  unfold_M.
  destruct (fileop_delete env uri r (depth self)) as [[|ms]|];
    destruct (quota env r); destruct (isPseudoCalendarCollectionResource env p); simpl;
    congruence.
Qed.

Lemma deleteCalendarResource_no_timeout env self r uri p :
  (deleteCalendarResource env self r uri p).2 ≠ inl MemcacheLockTimeoutError.
Proof.
  dcr_cases env self r uri p; try discriminate.
  intros He; injection He as ->. eapply validIfScheduleMatch_no_timeout; exact Evs.
Qed.

Lemma deleteAddressBookResource_raises env self r uri p e :
  (deleteAddressBookResource env self r uri p).2 = inl e → e = CollaboratorError.
Proof.
  unfold deleteAddressBookResource, deleteAddressBookResource_body, delete, quotaSizeAdjust,
    bumpSyncToken, index_deleteResource.
  unfold_M.
  destruct (fileop_delete env uri r (depth self)) as [[|ms]|]; destruct (quota env r); simpl;
    congruence.
Qed.

Lemma deleteChildren_no_timeout env del_child r uri ns q :
  (deleteChildren env del_child r uri ns q).2 ≠ inl MemcacheLockTimeoutError.
Proof.
  revert q; induction ns as [|n ns IH]; intros q; simpl; [discriminate|].
  destruct (locateChildResource env r n) as [c|]; [|discriminate].
  unfold_M. destruct (del_child c (joinURL uri n) r) as [l [e|a]]; simpl.
  all: match goal with |- context [deleteChildren _ _ _ _ _ ?q'] =>
         specialize (IH q'); destruct (deleteChildren _ _ _ _ _ q') end.
  all: simpl in *; exact IH.
Qed.

Lemma deleteCalendar_no_timeout env self r uri p :
  (deleteCalendar env self r uri p).2 ≠ inl MemcacheLockTimeoutError.
Proof.
  unfold deleteCalendar.
  destruct (isDefaultCalendar env r); [discriminate|].
  destruct (bool_decide (depth self = "infinity")); simpl; [|discriminate].
  destruct (isVirtualShare env r); [discriminate|].
  pose proof (deleteChildren_no_timeout env (deleteCalendarResource env self) r uri
    (listChildren env r) ∅) as Hch.
  destruct (deleteChildren env _ r uri _ ∅) as [lc [e|errs]]; [unfold_M; simpl in *; congruence|].
  unfold bumpSyncToken. unfold_M.
  pose proof (deleteResource_raises env self r uri p) as Hr.
  destruct (deleteResource env self r uri p) as [lr [e|resp]]; simpl in Hr.
  all: destruct (isShared env r); simpl.
  all: try destruct (is_no_content _); simpl; try discriminate.
  all: intros [= ->]; specialize (Hr _ eq_refl); discriminate.
Qed.

Lemma deleteAddressBook_no_timeout env self r uri p :
  (deleteAddressBook env self r uri p).2 ≠ inl MemcacheLockTimeoutError.
Proof.
  unfold deleteAddressBook.
  destruct (bool_decide (depth self = "infinity")); simpl; [|discriminate].
  destruct (isVirtualShare env r); [discriminate|].
  pose proof (deleteChildren_no_timeout env (deleteAddressBookResource env self) r uri
    (listChildren env r) ∅) as Hch.
  destruct (deleteChildren env _ r uri _ ∅) as [lc [e|errs]]; [unfold_M; simpl in *; congruence|].
  unfold bumpSyncToken. unfold_M.
  pose proof (deleteResource_raises env self r uri p) as Hr.
  destruct (deleteResource env self r uri p) as [lr [e|resp]]; simpl in Hr.
  all: destruct (isShared env r); simpl; try discriminate.
  all: intros [= ->]; specialize (Hr _ eq_refl); discriminate.
Qed.

(** X12: no DELETE dispatched by [run] ends in a raw lock timeout. *)
Theorem run_no_lock_timeout (env : Env) (self : DeleteResource) :
  (run env self).2 ≠ inl MemcacheLockTimeoutError.
Proof.
  assert (Hc : ∀ r uri p, (deleteCalendar env self r uri p).2 ≠ inl MemcacheLockTimeoutError)
    by apply deleteCalendar_no_timeout.
  assert (Ha : ∀ r uri p, (deleteAddressBook env self r uri p).2 ≠ inl MemcacheLockTimeoutError)
    by apply deleteAddressBook_no_timeout.
  assert (Hr : ∀ r uri p, (deleteResource env self r uri p).2 ≠ inl MemcacheLockTimeoutError).
  { intros r uri p H. apply deleteResource_raises in H. discriminate. }
  unfold run.
  destruct (isCalendarCollectionResource env (parent self));
    [apply deleteCalendarResource_no_timeout|].
  destruct (isCalendarCollectionResource env (resource self)); [apply Hc|].
  destruct (isAddressBookCollectionResource env (parent self));
    [intros H; apply deleteAddressBookResource_raises in H; discriminate|].
  destruct (isAddressBookCollectionResource env (resource self)); [apply Ha|].
  destruct (isCollection env (resource self)); [|apply Hr].
  unfold deleteCollection.
  destruct (bool_decide (depth self = "infinity")); simpl; [|discriminate].
  match goal with |- context [applyToCollections ?f ?cols ∅] =>
    pose proof (applyToCollections_raises f cols ∅ MemcacheLockTimeoutError) as Hap;
    destruct (applyToCollections f cols ∅) as [la [e|errs]] end.
  all: unfold_M; simpl in *.
  - intros [= ->]. apply Hap; [|reflexivity]. intros c u q. specialize (Hc c u (locateParent env c u)). simpl.
    destruct (deleteCalendar _ _ _ _ _) as [l [?|?]]; simpl in *; [congruence | discriminate].
  - specialize (Hr (resource self) (resource_uri self) (parent self)).
    destruct (deleteResource env self _ _ _) as [lr [e|resp]]; simpl in *; [exact Hr | discriminate].
Qed.

(** X13: in deleteAddressBook past its depth and virtual-share checks
    (there is no default-collection check), the error queue [m] built by
    the loop records each child whose delete raises under its child URI
    with BadRequest, and nothing else.  When every child is found, every
    child is deleted in listing order whatever happens to the others'
    deletes, and the outcome is the address book's own delete merged with
    [m]; with distinct child names and a NoContent own delete, K failed
    children give exactly K entries and the outcome is NoContent exactly
    when K = 0.  A child that is not found aborts the delete with that
    failure, after the children before it. *)
Theorem deleteAddressBook_child_errors (env : Env) (self : DeleteResource) (r : Res)
    (uri : string) (p : Res) :
  depth self = "infinity" → isVirtualShare env r = false →
  let ns := listChildren env r in
  let failed n := child_failed env (deleteAddressBookResource env self) r uri n in
  let m := failed_errors env (deleteAddressBookResource env self) r uri ns ∅ in
  let K := length (filter (λ n, failed n = true) ns) in
  (∀ k v, m !! k = Some v ↔
     v = BAD_REQUEST ∧ ∃ n, n ∈ ns ∧ failed n = true ∧ k = joinURL uri n) ∧
  (all_located env r ns →
   (∃ tail, (deleteAddressBook env self r uri p).1 =
      concat (map (child_trace env (deleteAddressBookResource env self) r uri) ns) ++ tail) ∧
   (deleteAddressBook env self r uri p).2 =
     match fileop_delete env uri r (depth self) with
     | None => inl CollaboratorError
     | Some resp => inr (rq_response (rq_merge resp m))
     end ∧
   (NoDup ns → fileop_delete env uri r (depth self) = Some RNoContent →
    (deleteAddressBook env self r uri p).2 = inr (rq_response m) ∧
    size m = K ∧ (rq_response m = RNoContent ↔ K = 0))) ∧
  (∀ pre n post, ns = pre ++ n :: post → all_located env r pre →
   locateChildResource env r n = None →
   deleteAddressBook env self r uri p =
     (concat (map (child_trace env (deleteAddressBookResource env self) r uri) pre),
      inl CollaboratorError)).
Proof.
  intros Hd Hv ns failed m K.
  split; [|split].
  - intros k v. unfold m. rewrite failed_errors_lookup by apply map_Forall_empty.
    rewrite lookup_empty. naive_solver.
  - intros Hloc.
    assert (Hrun : ∃ tail, deleteAddressBook env self r uri p =
      (concat (map (child_trace env (deleteAddressBookResource env self) r uri) ns) ++ tail,
       match fileop_delete env uri r (depth self) with
       | None => inl CollaboratorError
       | Some resp => inr (rq_response (rq_merge resp m))
       end)).
    { unfold deleteAddressBook. rewrite Hv, bool_decide_true by exact Hd. simpl.
      rewrite deleteChildren_spec by exact Hloc.
      unfold deleteResource, delete, quotaSizeAdjust, bumpSyncToken, index_deleteResource.
      unfold_M. fold ns. fold m.
      destruct (fileop_delete env uri r (depth self)) as [resp|].
      + destruct (quota env r); simpl;
          repeat match goal with |- context [if ?c then _ else _] => destruct c; simpl end;
          eexists; reflexivity.
      + destruct (isShared env r), (quota env r); simpl; eexists; reflexivity. }
    destruct Hrun as [tail Hrun]. rewrite Hrun. split; [eexists; reflexivity|].
    split; [reflexivity|].
    intros Hnd Hfd. rewrite Hfd.
    assert (Hsize : size m = K).
    { unfold m. rewrite failed_errors_size; [rewrite map_size_empty; reflexivity | exact Hnd |].
      intros. apply lookup_empty. }
    split; [reflexivity|]. split; [exact Hsize|].
    unfold rq_response. rewrite <- Hsize, map_size_empty_iff.
    destruct (decide (m = ∅)); naive_solver.
  - intros pre n post Hns Hpre Hn.
    unfold deleteAddressBook. rewrite Hv, bool_decide_true by exact Hd. simpl.
    fold ns. rewrite Hns, deleteChildren_lost by assumption. reflexivity.
Qed.

(** The outcome of a collection delete that found no nested collection. *)
Definition plain_outcome (m : M Resp) : M Resp :=
  match m with
  | (l, inl e) => (l, inl e)
  | (l, inr RNoContent) => (l, inr RNoContent)
  | (l, inr (RMultiStatus ch)) => (l, inr (rq_response ch))
  end.

(** X14: a depth-infinity delete of a plain collection containing no
    calendar (address book) collection is the plain delete of the target:
    same calls; NoContent stays NoContent and a multi-status from the
    underlying delete is passed on (an empty one as NoContent). *)
Theorem deleteCollection_without_nested (env : Env) (self : DeleteResource) :
  depth self = "infinity" →
  (calendarCollections env (resource self) (resource_uri self) = [] →
   deleteCollection env self =
     plain_outcome (deleteResource env self (resource self) (resource_uri self) (parent self))) ∧
  (addressBookCollections env (resource self) (resource_uri self) = [] →
   deleteCollectionAB env self =
     plain_outcome (deleteResource env self (resource self) (resource_uri self) (parent self))).
Proof.
  intros Hd. unfold deleteCollection, deleteCollectionAB, plain_outcome.
  rewrite bool_decide_true by exact Hd. simpl.
  split; intros ->; simpl; unfold_M; simpl.
  all: destruct (deleteResource env self _ _ _) as [l [e|[|ch]]]; simpl; try reflexivity.
  all: rewrite app_nil_r; try rewrite (right_id_L ∅ union ch); reflexivity.
Qed.

Lemma applyToCollections_fails f cols q c u :
  (c, u) ∈ cols → (∀ q', ∃ l e, f c u ([], inr q') = (l, inl e)) →
  ∃ e, (applyToCollections f cols q).2 = inl e.
Proof.
  intros Hin Hf. revert q; induction cols as [|[c' u'] cols IH]; intros q;
    [apply elem_of_nil in Hin; contradiction|].
  simpl. unfold mret, M_ret, mbind, M_bind.
  apply elem_of_cons in Hin as [Heq|Hin].
  - injection Heq as -> ->. destruct (Hf q) as (l & e & ->). eauto.
  - destruct (f c' u' ([], inr q)) as [l [e|q']]; simpl; [eauto|].
    destruct (IH Hin q') as [e He]. destruct (applyToCollections f cols q'). simpl in *.
    subst. eauto.
Qed.

(** X15: a plain collection whose tree contains the user's default
    calendar cannot be deleted: deleteCollection always ends in an
    error. *)
Theorem deleteCollection_default_calendar_fails (env : Env) (self : DeleteResource) (c : Res)
    (u : string) :
  (c, u) ∈ calendarCollections env (resource self) (resource_uri self) →
  isDefaultCalendar env c = true →
  ∃ e, (deleteCollection env self).2 = inl e.
Proof.
  intros Hin Hdef. unfold deleteCollection.
  destruct (bool_decide (depth self = "infinity")); simpl; [|eauto].
  match goal with |- context [applyToCollections ?f ?cols ∅] =>
    destruct (applyToCollections_fails f cols ∅ c u Hin) as [e He];
    [|destruct (applyToCollections f cols ∅) as [la [e'|errs]]] end.
  - intros q'. unfold mret, M_ret, mbind, M_bind. simpl.
    unfold deleteCalendar. rewrite Hdef. simpl. eauto.
  - simpl. eauto.
  - simpl in He. discriminate.
Qed.

(** X16: deleteAddressBookResource makes no call twice; it advances the
    parent's sync token and removes the index entry exactly when the
    underlying delete returned NoContent, with no check of the parent's
    kind; a normal return hands back what the underlying delete returned. *)
Theorem deleteAddressBookResource_commit (env : Env) (self : DeleteResource) (r : Res)
    (uri : string) (p : Res) :
  let '(l, res) := deleteAddressBookResource env self r uri p in
  NoDup l ∧
  (∀ c, EvBumpSyncToken c ∈ l ↔ c = p ∧ fileop_delete env uri r (depth self) = Some RNoContent) ∧
  (∀ c n, EvIndexDelete c n ∈ l ↔
     c = p ∧ n = basename env r ∧ fileop_delete env uri r (depth self) = Some RNoContent) ∧
  (∀ v, res = inr v → fileop_delete env uri r (depth self) = Some v).
Proof.
  unfold deleteAddressBookResource, deleteAddressBookResource_body, delete, quotaSizeAdjust,
    bumpSyncToken, index_deleteResource.
  unfold_M.
  destruct (fileop_delete env uri r (depth self)) as [[|ms]|]; destruct (quota env r); simpl.
  all: split; [repeat constructor; set_solver|].
  all: split; [intros c; split; intros H;
               [in_list H; destruct_or?; try contradiction; simplify_eq; auto
               | destruct H as (-> & ?); simplify_eq; set_solver]|].
  all: split; [intros c n; split; intros H;
               [in_list H; destruct_or?; try contradiction; simplify_eq; auto
               | destruct H as (-> & -> & ?); simplify_eq; set_solver]|].
  all: intros v Hv; simplify_eq; reflexivity.
Qed.

(** Stores for concrete runs: [e] with other collection kinds, nested
    collections and scheduling failures. *)
Definition env_update (e : Env) (cal ab : Res → bool) (cols : Res → string → list (Res * string))
    (fails : Res → bool) : Env := {|
  exists_ := exists_ e;
  schedule_tag := schedule_tag e;
  quota := quota e;
  quotaSize := quotaSize e;
  fileop_delete := fileop_delete e;
  resourceUID := resourceUID e;
  testImplicitSchedulingDELETE := testImplicitSchedulingDELETE e;
  implicit_fails := fails;
  lock_available := lock_available e;
  isVirtualShare := isVirtualShare e;
  isDefaultCalendar := isDefaultCalendar e;
  isShared := isShared e;
  isPseudoCalendarCollectionResource := isPseudoCalendarCollectionResource e;
  isCalendarCollectionResource := cal;
  isAddressBookCollectionResource := ab;
  isCollection := isCollection e;
  listChildren := listChildren e;
  locateChildResource := locateChildResource e;
  locateParent := locateParent e;
  basename := basename e;
  calendarCollections := cols;
  addressBookCollections := addressBookCollections e
|}.

Definition tagged_delete : DeleteResource := {|
  if_schedule_tag_match := Some "2"; resource := "/cal/a"; resource_uri := "/cal/a";
  parent := "/cal"; depth := "0"; internal_request := false; allowImplicitSchedule := true
|}.

Definition internal_delete (target par d : string) : DeleteResource := {|
  if_schedule_tag_match := None; resource := target; resource_uri := target;
  parent := par; depth := d; internal_request := true; allowImplicitSchedule := true
|}.

Lemma deleteCalendarResource_precondition_first_witness :
  deleteCalendarResource (test_env (Some RNoContent) None true true false false ["a"] [] (Some "1"))
    tagged_delete "/cal/a" "/cal/a" "/cal" = ([], inl (HTTPError PRECONDITION_FAILED)).
Proof. apply deleteCalendarResource_precondition_first. reflexivity. Defined.

Lemma deleteCalendarResource_sharee_forbidden_witness :
  deleteCalendarResource (test_env (Some RNoContent) None true true false true ["a"] [] None)
    (client_delete "/cal/a" "/cal" "0") "/cal/a" "/cal/a" "/cal"
  = ([EvTestImplicit "/cal/a"], inl (HTTPError FORBIDDEN)).
Proof. apply deleteCalendarResource_sharee_forbidden; reflexivity. Defined.

Lemma deleteCalendarResource_internal_no_scheduling_witness :
  let '(l, _) := deleteCalendarResource
                   (test_env (Some RNoContent) None true true false false ["a"] [] None)
                   (internal_delete "/cal/a" "/cal" "0") "/cal/a" "/cal/a" "/cal" in
  ∀ x u, (EvTestImplicit x ∉ l) ∧ (EvDoImplicit x ∉ l) ∧ (EvLockAcquired u ∉ l) ∧ (EvLockClean u ∉ l).
Proof. apply deleteCalendarResource_internal_no_scheduling. left. reflexivity. Defined.

Definition env_failing_scheduler : Env :=
  env_update (test_env (Some RNoContent) None true true false false ["a"] [] None)
    (λ r, bool_decide (r = "/cal")) (λ _, false) (λ _ _, []) (λ _, true).

Lemma deleteCalendarResource_scheduling_failure_after_commit_witness :
  let '(l, res) := deleteCalendarResource env_failing_scheduler
                     (client_delete "/cal/a" "/cal" "0") "/cal/a" "/cal/a" "/cal" in
  res = inl CollaboratorError ∧ EvDelete "/cal/a" "/cal/a" "0" ∈ l ∧
  EvBumpSyncToken "/cal" ∈ l ∧ EvIndexDelete "/cal" (basename env_failing_scheduler "/cal/a") ∈ l ∧
  EvDoImplicit "/cal/a" ∈ l ∧
  last l = Some (if testImplicitSchedulingDELETE env_failing_scheduler "/cal/a"
                 then EvLockClean (resourceUID env_failing_scheduler "/cal/a")
                 else EvDoImplicit "/cal/a").
Proof.
  apply deleteCalendarResource_scheduling_failure_after_commit;
    [reflexivity | reflexivity | reflexivity | intros _; split; reflexivity
    | reflexivity | reflexivity].
Defined.

Lemma deleteCalendar_cleanup_witness :
  let e := test_env (Some RNoContent) None false true false false ["a"] [] None in
  let '(l, res) := deleteCalendar e (client_delete "/cal" "/" "infinity") "/cal" "/cal" "/" in
  ((res = inr RNoContent ∧
    ∃ l', l = l' ++ [EvDeletedCalendar "/cal"] ∧ ∀ x, EvDeletedCalendar x ∉ l') ∨
   (res ≠ inr RNoContent ∧ ∀ x, EvDeletedCalendar x ∉ l)) ∧
  (EvDowngradeFromShare "/cal" ∈ l ↔ isShared e "/cal" = true) ∧
  (∀ x, EvRemoveVirtualShare x ∉ l).
Proof.
  intros e.
  apply deleteCalendar_cleanup;
    [reflexivity | reflexivity | reflexivity | intros n _; eexists; reflexivity].
Defined.

Lemma deleteAddressBook_child_errors_witness :
  let e := test_env (Some RNoContent) None false true false false ["a"; "b"] ["b"] None in
  let del := deleteAddressBookResource e (client_delete "/cal" "/" "infinity") in
  let m := failed_errors e del "/cal" "/cal" (listChildren e "/cal") ∅ in
  (deleteAddressBook e (client_delete "/cal" "/" "infinity") "/cal" "/cal" "/").2
    = inr (rq_response m) ∧
  size m = length (filter (λ n, child_failed e del "/cal" "/cal" n = true) (listChildren e "/cal")) ∧
  (rq_response m = RNoContent ↔
   length (filter (λ n, child_failed e del "/cal" "/cal" n = true) (listChildren e "/cal")) = 0).
Proof.
  intros e del m.
  destruct (deleteAddressBook_child_errors e (client_delete "/cal" "/" "infinity") "/cal" "/cal" "/"
              eq_refl eq_refl) as (_ & H & _).
  destruct H as (_ & _ & H); [intros n _; eexists; reflexivity|].
  apply H; [vm_compute; repeat constructor; set_solver | reflexivity].
Defined.

Lemma run_internal_no_scheduling_witness :
  Forall (λ ev, is_scheduling_event ev = false)
    (run (test_env (Some RNoContent) None true true false false ["a"] [] None)
       (internal_delete "/cal/a" "/cal" "0")).1.
Proof. apply run_internal_no_scheduling. left. reflexivity. Defined.

Definition env_addressbook : Env :=
  env_update (test_env (Some RNoContent) None true true false false ["a"] [] None)
    (λ _, false) (λ r, bool_decide (r = "/cal")) (λ _ _, []) (λ _, false).

Lemma run_addressbook_no_calendar_steps_witness :
  Forall (λ ev, is_scheduling_event ev = false ∧ ∀ x, ev ≠ EvDeletedCalendar x)
    (run env_addressbook (client_delete "/cal" "/" "infinity")).1.
Proof. apply run_addressbook_no_calendar_steps; [reflexivity | reflexivity | right; reflexivity]. Defined.

Lemma deleteCollection_without_nested_witness :
  let e := test_env (Some RNoContent) None false true false false ["a"] [] None in
  (calendarCollections e "/cal" "/cal" = [] →
   deleteCollection e (client_delete "/cal" "/" "infinity") =
     plain_outcome (deleteResource e (client_delete "/cal" "/" "infinity") "/cal" "/cal" "/")) ∧
  (addressBookCollections e "/cal" "/cal" = [] →
   deleteCollectionAB e (client_delete "/cal" "/" "infinity") =
     plain_outcome (deleteResource e (client_delete "/cal" "/" "infinity") "/cal" "/cal" "/")).
Proof. intros e. apply (deleteCollection_without_nested e (client_delete "/cal" "/" "infinity")). reflexivity. Defined.

Definition env_home : Env :=
  env_update (test_env (Some RNoContent) None false true true false ["a"] [] None)
    (λ r, bool_decide (r = "/cal")) (λ _, false)
    (λ r _, if decide (r = "/home") then [("/cal", "/cal")] else []) (λ _, false).

Lemma deleteCollection_default_calendar_fails_witness :
  ∃ e, (deleteCollection env_home (client_delete "/home" "/" "infinity")).2 = inl e.
Proof.
  apply (deleteCollection_default_calendar_fails env_home (client_delete "/home" "/" "infinity")
           "/cal" "/cal"); [left | reflexivity].
Defined.

